(** * CellProfiler modules [Groups] and [RescaleIntensity]

    A shallow embedding of [cellprofiler/modules/groups.py] (the
    renumbering of image sets done by [Groups.prepare_run]) and of
    [cellprofiler/modules/rescaleintensity.py] (the group-wide extrema of
    [RescaleIntensity.prepare_group] and the guarded division of
    [RescaleIntensity.divide]), followed by the properties proved of them.

    Python integers that count or index (image numbers, group numbers,
    group indexes, array positions) are [nat]; pixel intensities and
    divisors are binary64 floats; Python's [str] is [string], compared
    byte by byte; an exception is the name of its class. *)

From Stdlib Require Import PrimFloat.
From Stdlib Require OrderedTypeEx.
From stdpp Require Import gmap strings list sorting.

(** ** Python *)

Module Py.

(** The outcome of a call: the value it returns or the exception it raises. *)
Inductive result (A : Type) : Type :=
  | Returned (a : A)
  | Raised (exc : string).
Arguments Returned {A} a.
Arguments Raised {A} exc.

Definition bind {A B : Type} (k : A → result B) (r : result A) : result B :=
  match r with
  | Returned a => k a
  | Raised exc => Raised exc
  end.

(** Python 2's three-way comparison [cmp(x, y)] on the types that the
    modules sort: integers, strings, [None] or a string ([None] sorts
    first), and tuples and lists (element-wise, a proper prefix first). *)
Class Cmp (A : Type) : Type := cmp : A → A → comparison.
Global Hint Mode Cmp ! : typeclass_instances.

Global Instance nat_cmp : Cmp nat := Nat.compare.
Global Instance string_cmp : Cmp string := String.compare.
Global Instance option_cmp {A} `{Cmp A} : Cmp (option A) := λ x y,
  match x, y with
  | None, None => Eq
  | None, Some _ => Lt
  | Some _, None => Gt
  | Some a, Some b => cmp a b
  end.
Global Instance list_cmp {A} `{Cmp A} : Cmp (list A) := list_compare cmp.
Global Instance prod_cmp {A B} `{Cmp A, Cmp B} : Cmp (A * B) := λ x y,
  match cmp x.1 y.1 with
  | Eq => cmp x.2 y.2
  | c => c
  end.

(** [x <= y] *)
Definition le {A} `{Cmp A} (x y : A) : bool :=
  match cmp x y with
  | Gt => false
  | _ => true
  end.

(** A stable sort: [x], which comes before every element of [l] in the
    input, is put in front of the first element that is not smaller. *)
Fixpoint insort {A} (leb : A → A → bool) (x : A) (l : list A) : list A :=
  match l with
  | [] => [x]
  | y :: l' => if leb x y then x :: y :: l' else y :: insort leb x l'
  end.

Definition stable_sort {A} (leb : A → A → bool) (l : list A) : list A :=
  foldr (insort leb) [] l.

(** [sorted(iterable)] *)
Definition sorted {A} `{Cmp A} (l : list A) : list A := stable_sort le l.

(** [max(a, b)] and [min(a, b)] on floats: the first argument unless the
    second is strictly beyond it. *)
Definition max (a b : float) : float := if PrimFloat.ltb a b then b else a.
Definition min (a b : float) : float := if PrimFloat.ltb b a then b else a.

(** [l[i]] for a position [i] that is not negative. *)
Definition getitem {A} (l : list A) (i : nat) : result A :=
  match l !! i with
  | Some x => Returned x
  | None => Raised "IndexError"
  end.

(** A loop that appends [f x] for each [x] of [l]; the first exception
    ends it. *)
Fixpoint traverse {A B} (f : A → result B) (l : list A) : result (list B) :=
  match l with
  | [] => Returned []
  | x :: l' => bind (λ y, bind (λ ys, Returned (y :: ys)) (traverse f l')) (f x)
  end.

(** [s.startswith(prefix)] *)
Definition startswith (s prefix : string) : bool := String.prefix prefix s.

(** [s[k:]] for a string [s]. *)
Fixpoint slice_from (k : nat) (s : string) : string :=
  match k, s with
  | 0, _ => s
  | S k', String _ s' => slice_from k' s'
  | S _, EmptyString => EmptyString
  end.

End Py.

Abbreviation Returned := Py.Returned.
Abbreviation Raised := Py.Raised.

Global Instance result_bind : MBind Py.result := @Py.bind.
Global Instance result_fmap : FMap Py.result := λ A B f r,
  Py.bind (λ a, Returned (f a)) r.

(** ** numpy *)

Module Numpy.

(** [np.hstack(arrays)] of one-dimensional arrays; an empty sequence of
    arrays is refused. *)
Definition hstack {A} (arrays : list (list A)) : Py.result (list A) :=
  match arrays with
  | [] => Raised "ValueError"
  | _ => Returned (concat arrays)
  end.

(** [np.ones(n, int) * v] *)
Definition ones_times (n v : nat) : list nat := replicate n v.

(** [np.arange(n) + 1] *)
Definition arange_plus_1 (n : nat) : list nat := seq 1 n.

(** [np.zeros(n, int)] *)
Definition zeros (n : nat) : list nat := replicate n 0.

(** [np.lexsort((secondary, primary))]: the positions of the arrays, sorted
    by [primary] and then by [secondary]; the sort is stable. *)
Definition lexsort (secondary primary : list nat) : list nat :=
  Py.stable_sort
    (λ i j, Py.le (primary !!! i, secondary !!! i) (primary !!! j, secondary !!! j))
    (seq 0 (length primary)).

(** [a[index]] for an array of positions [index]. *)
Definition take {A} (a : list A) (index : list nat) : Py.result (list A) :=
  match mapM (λ i, a !! i) index with
  | Some r => Returned r
  | None => Raised "IndexError"
  end.

(** [a[index] = values], assigned from left to right. *)
Fixpoint put {A} (a : list A) (index : list nat) (values : list A) : Py.result (list A) :=
  match index, values with
  | i :: index', v :: values' =>
      if decide (i < length a) then put (<[i:=v]> a) index' values'
      else Raised "IndexError"
  | _, _ => Returned a
  end.

(** [np.max(a)] of an array of integers. *)
Definition max (a : list nat) : Py.result nat :=
  match a with
  | [] => Raised "ValueError"
  | x :: a' => Returned (foldl Nat.max x a')
  end.

(** [np.max(a)] and [np.min(a)] of an array of floats: NaN wins, an empty
    array is refused. *)
Definition is_nan (x : float) : bool := negb (PrimFloat.eqb x x).

Definition fmax2 (a b : float) : float :=
  if is_nan a then a else if is_nan b then b else if PrimFloat.ltb a b then b else a.

Definition fmin2 (a b : float) : float :=
  if is_nan a then a else if is_nan b then b else if PrimFloat.ltb b a then b else a.

Definition amax (a : list float) : Py.result float :=
  match a with
  | [] => Raised "ValueError"
  | x :: a' => Returned (foldl fmax2 x a')
  end.

Definition amin (a : list float) : Py.result float :=
  match a with
  | [] => Raised "ValueError"
  | x :: a' => Returned (foldl fmin2 x a')
  end.

(** [a[mask]] for a boolean [mask] of the shape of [a]: the elements at
    the positions where the mask is set. *)
Definition select {A} (a : list A) (mask : list bool) : list A :=
  (filter (λ p, p.2 = true) (zip a mask)).*1.

End Numpy.

(** ** cellprofiler.measurements *)

Module cpmeas.

(** One image set of the measurements: its image number and its metadata,
    from feature name to value. *)
Record ImageSetRecord : Type := {
  image_number : nat;
  metadata : gmap string string;
}.

(** The part of a [Measurements] object that [Groups] reads: the names of
    the image features, [m.get_feature_names(cpmeas.IMAGE)], and the image
    sets in the order in which they arrived. *)
Record Measurements : Type := {
  feature_names : list string;
  image_sets : list ImageSetRecord;
}.

(** [m.get_image_numbers()] *)
Definition get_image_numbers (m : Measurements) : list nat :=
  image_number <$> image_sets m.

(** The values of the grouping features for one image set; a feature that
    the image set has no value for reads as [None]. *)
Abbreviation GroupKey := (list (option string)).

Definition group_key (features : list string) (r : ImageSetRecord) : GroupKey :=
  (λ feature, metadata r !! feature) <$> features.

(** Modelled from the spec: [Measurements.get_groupings(features)], which
    is defined in [cellprofiler/measurements.py] and only called in
    [groups.py]. Each image set has the tuple of its values for [features]
    as its key; the distinct keys are collected, and each comes with the
    image numbers of the image sets that have it, in arrival order. *)
Definition get_groupings (m : Measurements) (features : list string)
    : list (GroupKey * list nat) :=
  (λ key, (key, image_number <$>
                  filter (λ r, group_key features r = key) (image_sets m)))
    <$> remove_dups (group_key features <$> image_sets m).

(** The image features that [Groups] writes for every image set. *)
Inductive feature : Type := GROUP_NUMBER | GROUP_INDEX.

(** The calls by which [Groups.prepare_run] changes the measurements:
    [m.reorder_image_measurements(new_image_numbers)],
    [m.add_all_measurements(cpmeas.IMAGE, feature, values)] and
    [m.set_grouping_tags(tags)]. *)
Inductive call : Type :=
  | ReorderImageMeasurements (new_image_numbers : list nat)
  | AddAllMeasurements (ftr : feature) (values : list nat)
  | SetGroupingTags (tags : option (list string)).

(** Modelled from the spec: [Measurements.reorder_image_measurements], the
    record store's [reorder]. [new_image_numbers] maps an old image number
    to the new one; afterwards the image sets are numbered 1, 2, ... and
    the image set numbered [n] is the one whose old number is mapped to
    [n]. The metadata of an image set moves with it. *)
Definition reorder_image_measurements (new_image_numbers : list nat)
    (m : Measurements) : Measurements :=
  {| feature_names := feature_names m;
     image_sets :=
       omap (λ n,
               (λ r, {| image_number := n; metadata := metadata r |}) <$>
               List.find (λ r, bool_decide (new_image_numbers !! image_number r = Some n))
                         (image_sets m))
            (seq 1 (length (image_sets m))) |}.

End cpmeas.

(** ** cellprofiler.modules.groups *)

Module Groups.

Import cpmeas.

(** The settings of the module that [prepare_run] reads: [wants_groups]
    and, for each entry of [grouping_metadata], its [metadata_choice]. *)
Record Groups : Type := {
  wants_groups : bool;
  grouping_metadata : list string;
}.

Record Workspace : Type := {
  in_batch_mode : bool;
  measurements : Measurements;
}.

(** The arrays that [prepare_run] computes from the groupings:
    [image_numbers[order]], the reordered [group_numbers] and
    [group_indexes], and [new_image_numbers]. *)
Record Partition : Type := {
  ordering : list nat;
  group_numbers : list nat;
  group_indexes : list nat;
  new_image_numbers : list nat;
}.

Section Groups.

(** [cpmeas.C_METADATA], the prefix of the metadata features. *)
Variable C_METADATA : string.

Definition get_grouping_tags (self : Groups) : option (list string) :=
  if negb (wants_groups self) then None
  else Some ((λ g, C_METADATA +:+ "_" +:+ g) <$> grouping_metadata self).

(** [get_grouping_tags] has already answered a list when [key_list] is
    read, because [wants_groups] holds there. *)
Definition get_groupings (self : Groups) (workspace : Workspace)
    : option (list string * list (GroupKey * list nat)) :=
  if negb (wants_groups self) then None
  else
    key_list ← get_grouping_tags self;
    let m := measurements workspace in
    if existsb (λ key, bool_decide (key ∉ feature_names m)) key_list
    then None
    else Some (key_list, cpmeas.get_groupings m key_list).

(** Lines 401 to 424 of [prepare_run]. *)
Definition arrays (groupings : list (GroupKey * list nat)) : Py.result Partition :=
  let groupings := Py.sorted groupings in
  group_numbers ← Numpy.hstack
    (imap (λ i g, Numpy.ones_times (length g.2) (i + 1)) groupings);
  group_indexes ← Numpy.hstack
    ((λ g, Numpy.arange_plus_1 (length g.2)) <$> groupings);
  image_numbers ← Numpy.hstack (snd <$> groupings);
  let order := Numpy.lexsort group_indexes group_numbers in
  group_numbers ← Numpy.take group_numbers order;
  group_indexes ← Numpy.take group_indexes order;
  top ← Numpy.max image_numbers;
  let new_image_numbers := Numpy.zeros (top + 1) in
  index ← Numpy.take image_numbers order;
  new_image_numbers ← Numpy.put new_image_numbers index
    (Numpy.arange_plus_1 (length image_numbers));
  Returned {| ordering := index;
              group_numbers := group_numbers;
              group_indexes := group_indexes;
              new_image_numbers := new_image_numbers |}.

(** What [prepare_run] computes before it touches the measurements:
    nothing when [get_groupings] answers [None], the arrays otherwise. *)
Definition partition (self : Groups) (workspace : Workspace)
    : Py.result (option Partition) :=
  match get_groupings self workspace with
  | None => Returned None
  | Some (key_list, groupings) => Some <$> arrays groupings
  end.

(** [prepare_run]: the calls made on the measurements, in order, and the
    outcome. *)
Definition prepare_run (self : Groups) (workspace : Workspace)
    : list call * Py.result bool :=
  if in_batch_mode workspace then ([], Returned true)
  else if negb (wants_groups self) then ([], Returned true)
  else
    match partition self workspace with
    | Raised exc => ([], Raised exc)
    | Returned None => ([], Returned false)
    | Returned (Some p) =>
        ([ReorderImageMeasurements (new_image_numbers p);
          AddAllMeasurements GROUP_NUMBER (group_numbers p);
          AddAllMeasurements GROUP_INDEX (group_indexes p);
          SetGroupingTags (get_grouping_tags self)],
         Returned true)
    end.

End Groups.

(** The columns that [get_measurement_columns] declares:
    [(cpmeas.EXPERIMENT, cpmeas.M_GROUPING_TAGS, cpmeas.COLTYPE_VARCHAR)]
    and [(cpmeas.IMAGE, ftr, cpmeas.COLTYPE_VARCHAR)]. *)
Inductive column : Type :=
  | ExperimentGroupingTags
  | ImageVarchar (ftr : string).

(** The settings that [settings] lists: [wants_groups],
    [grouping_metadata_count] and the [metadata_choice] of the group at a
    position of [grouping_metadata]. *)
Inductive setting : Type :=
  | WantsGroups
  | GroupingMetadataCount
  | MetadataChoice (group : nat).

Definition IDX_GROUPING_METADATA_COUNT : nat := 1.

Section Settings.

(** [cpmeas.C_METADATA]. *)
Variable C_METADATA : string.

(** Python's [int] on a setting value. *)
Variable int : string → Py.result Z.

(** The [metadata_choice] of a group that [add_grouping_metadata] has just
    made. *)
Variable new_choice : string.

Definition settings (self : Groups) : list setting :=
  [WantsGroups; GroupingMetadataCount] ++
  (MetadataChoice <$> seq 0 (length (grouping_metadata self))).

(** The loop [while len(self.grouping_metadata) > nmetadata] of
    [prepare_settings], with a bound on its rounds. *)
Fixpoint prepare_settings_delete (rounds : nat) (groups : list string)
    (nmetadata : Z) : Py.result (list string) :=
  if bool_decide (nmetadata < Z.of_nat (length groups))%Z then
    match rounds with
    | 0 => Raised "RuntimeError"
    | S rounds' =>
        match groups with
        | [] => Raised "IndexError"
        | _ => prepare_settings_delete rounds' (removelast groups) nmetadata
        end
    end
  else Returned groups.

(** The loop [while len(self.grouping_metadata) < nmetadata], with a bound
    on its rounds. *)
Fixpoint prepare_settings_add (rounds : nat) (groups : list string)
    (nmetadata : Z) : Py.result (list string) :=
  if bool_decide (Z.of_nat (length groups) < nmetadata)%Z then
    match rounds with
    | 0 => Raised "RuntimeError"
    | S rounds' => prepare_settings_add rounds' (groups ++ [new_choice]) nmetadata
    end
  else Returned groups.

(** [prepare_settings]: the module afterwards. The first loop takes one
    round for each group, and one more to meet the empty list; the second
    takes at most [nmetadata] rounds. *)
Definition prepare_settings (self : Groups) (setting_values : list string)
    : Py.result Groups :=
  count ← Py.getitem setting_values IDX_GROUPING_METADATA_COUNT;
  nmetadata ← int count;
  kept ← prepare_settings_delete (S (length (grouping_metadata self)))
            (grouping_metadata self) nmetadata;
  grown ← prepare_settings_add (Z.to_nat nmetadata) kept nmetadata;
  Returned {| wants_groups := wants_groups self; grouping_metadata := grown |}.


(** [metadata_key_names] as [update_tables] has it after line 279: the
    choices, made feature names, with the prefix cut off again. *)
Definition update_tables_metadata_key_names (self : Groups) : list string :=
  let metadata_key_names := grouping_metadata self in
  let metadata_feature_names :=
    (λ key, C_METADATA +:+ "_" +:+ key) <$> metadata_key_names in
  (λ x, Py.slice_from (String.length C_METADATA + 1) x) <$> metadata_feature_names.

(** [get_measurement_columns]; [get_grouping_tags] answers a list where
    it is read. *)
Definition get_measurement_columns (self : Groups) : Py.result (list column) :=
  if wants_groups self then
    match get_grouping_tags C_METADATA self with
    | Some tags => Returned (ExperimentGroupingTags :: (ImageVarchar <$> tags))
    | None => Raised "TypeError"
    end
  else Returned [].

(** [upgrade_settings]: the setting values, the revision number and
    [from_matlab] that it returns. *)
Definition upgrade_settings (setting_values : list string)
    (variable_revision_number : nat) (from_matlab : bool)
    : Py.result (list string * nat * bool) :=
  if bool_decide (variable_revision_number = 1) then
    let new_setting_values := take (IDX_GROUPING_METADATA_COUNT + 1) setting_values in
    count ← Py.getitem setting_values IDX_GROUPING_METADATA_COUNT;
    n ← int count;
    appended ← Py.traverse
      (λ i, Py.getitem setting_values (IDX_GROUPING_METADATA_COUNT + 2 + i * 2))
      (seq 0 (Z.to_nat n));
    Returned (new_setting_values ++ appended, 2, from_matlab)
  else Returned (setting_values, variable_revision_number, from_matlab).

End Settings.

End Groups.

(** ** cellprofiler.modules.rescaleintensity *)

Module RescaleIntensity.

Definition LOW_ALL_IMAGES : string := "Minimum of all images".
Definition LOW_EACH_IMAGE : string := "Minimum for each image".
Definition CUSTOM_VALUE : string := "Custom".
Definition HIGH_ALL_IMAGES : string := "Maximum of all images".
Definition HIGH_EACH_IMAGE : string := "Maximum for each image".

(** What the module reads of a [cellprofiler.image.Image]: the pixels, in
    row-major order, the mask, which has the shape of the pixels, and
    whether the image has a mask of its own. *)
Record Image : Type := {
  pixel_data : list float;
  mask : list bool;
  has_mask : bool;
}.

(** The two choices that [prepare_group] reads. *)
Record RescaleIntensity : Type := {
  wants_automatic_low : string;
  wants_automatic_high : string;
}.

(** The dictionary that [get_dictionary(image_set_list)] answers; a value
    may be Python's [None]. *)
Abbreviation dictionary := (gmap string (option float)).

Definition set_automatic_minimum (d : dictionary) (value : option float) : dictionary :=
  <[LOW_ALL_IMAGES := value]> d.

Definition get_automatic_minimum (d : dictionary) : option (option float) :=
  d !! LOW_ALL_IMAGES.

Definition set_automatic_maximum (d : dictionary) (value : option float) : dictionary :=
  <[HIGH_ALL_IMAGES := value]> d.

Definition get_automatic_maximum (d : dictionary) : option (option float) :=
  d !! HIGH_ALL_IMAGES.

(** The body of the loop of [prepare_group], for one image of the group,
    on the pair of [min_value] and [max_value]. *)
Definition prepare_group_step (self : RescaleIntensity)
    (acc : option float * option float) (image : Image)
    : Py.result (option float * option float) :=
  let '(min_value, max_value) := acc in
  max_value ←
    (if bool_decide (wants_automatic_high self = HIGH_ALL_IMAGES) then
       if has_mask image then
         vmax ← Numpy.amax (Numpy.select (pixel_data image) (mask image));
         Returned max_value
       else
         vmax ← Numpy.amax (pixel_data image);
         Returned (Some (match max_value with
                         | None => vmax
                         | Some v => Py.max v vmax
                         end))
     else Returned max_value);
  min_value ←
    (if bool_decide (wants_automatic_low self = LOW_ALL_IMAGES) then
       if has_mask image then
         vmin ← Numpy.amin (Numpy.select (pixel_data image) (mask image));
         Returned min_value
       else
         vmin ← Numpy.amin (pixel_data image);
         Returned (Some (match min_value with
                         | None => vmin
                         | Some v => Py.min v vmin
                         end))
     else Returned min_value);
  Returned (min_value, max_value).

Fixpoint prepare_group_loop (self : RescaleIntensity)
    (acc : option float * option float) (images : list Image)
    : Py.result (option float * option float) :=
  match images with
  | [] => Returned acc
  | image :: images' =>
      acc' ← prepare_group_step self acc image;
      prepare_group_loop self acc' images'
  end.

(** [prepare_group], on the images that the workspaces of
    [run_group_with_yield] give for [image_name], one for each image number
    of the group: the dictionary afterwards and the value returned, [True]
    or nothing. *)
Definition prepare_group (self : RescaleIntensity) (images : list Image)
    (d : dictionary) : Py.result (dictionary * option bool) :=
  if bool_decide (wants_automatic_high self ≠ HIGH_ALL_IMAGES) &&
     bool_decide (wants_automatic_low self ≠ LOW_ALL_IMAGES)
  then Returned (d, Some true)
  else
    '(min_value, max_value) ← prepare_group_loop self (None, None) images;
    let d :=
      if bool_decide (wants_automatic_high self = HIGH_ALL_IMAGES)
      then set_automatic_maximum d max_value else d in
    let d :=
      if bool_decide (wants_automatic_low self = LOW_ALL_IMAGES)
      then set_automatic_minimum d min_value else d in
    Returned (d, None).

Definition divide (data : list float) (value : float) : Py.result (list float) :=
  if PrimFloat.eqb value 0 then Raised "ZeroDivisionError"
  else Returned ((λ x, PrimFloat.div x value) <$> data).

(** [scale_by_image_maximum], where [reference_image] is the image that
    [workspace.image_set.get_image(self.matching_image_name.value)]
    answers. *)
Definition scale_by_image_maximum (reference_image input_image : Image)
    : Py.result (list float) :=
  image_max ← Numpy.amax (Numpy.select (pixel_data input_image) (mask input_image));
  if PrimFloat.eqb image_max 0 then Returned (pixel_data input_image)
  else
    let reference_pixels :=
      Numpy.select (pixel_data reference_image) (mask reference_image) in
    reference_max ← Numpy.amax reference_pixels;
    divide ((λ x, PrimFloat.mul x reference_max) <$> pixel_data input_image) image_max.

Definition M_STRETCH : string := "Stretch each image to use the full intensity range".
Definition M_MANUAL_INPUT_RANGE : string :=
  "Choose specific values to be reset to the full intensity range".
Definition M_MANUAL_IO_RANGE : string :=
  "Choose specific values to be reset to a custom range".
Definition M_DIVIDE_BY_IMAGE_MINIMUM : string := "Divide by the image's minimum".
Definition M_DIVIDE_BY_IMAGE_MAXIMUM : string := "Divide by the image's maximum".
Definition M_DIVIDE_BY_VALUE : string := "Divide each image by the same value".
Definition M_DIVIDE_BY_MEASUREMENT : string :=
  "Divide each image by a previously calculated value".
Definition M_SCALE_BY_IMAGE_MAXIMUM : string :=
  "Match the image's maximum to another image's maximum".

Definition LOW_ALL : list string := [CUSTOM_VALUE; LOW_EACH_IMAGE; LOW_ALL_IMAGES].
Definition HIGH_ALL : list string := [CUSTOM_VALUE; HIGH_EACH_IMAGE; HIGH_ALL_IMAGES].

(** The settings of the module, by the names of their attributes. *)
Module setting.
Inductive t : Type :=
  | image_name
  | rescaled_image_name
  | rescale_method
  | wants_automatic_low
  | wants_automatic_high
  | source_low
  | source_high
  | source_scale
  | dest_scale
  | matching_image_name
  | divisor_value
  | divisor_measurement.

#[global] Instance eq_dec : EqDecision t.
Proof. solve_decision. Defined.
End setting.

Definition settings : list setting.t :=
  [setting.image_name; setting.rescaled_image_name; setting.rescale_method;
   setting.wants_automatic_low; setting.wants_automatic_high;
   setting.source_low; setting.source_high; setting.source_scale;
   setting.dest_scale; setting.matching_image_name; setting.divisor_value;
   setting.divisor_measurement].

(** [visible_settings], for the value of [rescale_method] and the two
    choices of [self]. *)
Definition visible_settings (rescale_method : string) (self : RescaleIntensity)
    : list setting.t :=
  let result :=
    [setting.image_name; setting.rescaled_image_name; setting.rescale_method] in
  let result :=
    if bool_decide (rescale_method = M_MANUAL_INPUT_RANGE) ||
       bool_decide (rescale_method = M_MANUAL_IO_RANGE)
    then
      let result := result ++ [setting.wants_automatic_low] in
      if bool_decide (wants_automatic_low self = CUSTOM_VALUE) then
        if bool_decide (wants_automatic_high self ≠ CUSTOM_VALUE)
        then result ++ [setting.source_low; setting.wants_automatic_high]
        else result ++ [setting.wants_automatic_high; setting.source_scale]
      else
        let result := result ++ [setting.wants_automatic_high] in
        if bool_decide (wants_automatic_high self = CUSTOM_VALUE)
        then result ++ [setting.source_high]
        else result
    else result in
  let result :=
    if bool_decide (rescale_method = M_MANUAL_IO_RANGE)
    then result ++ [setting.dest_scale] else result in
  if bool_decide (rescale_method = M_SCALE_BY_IMAGE_MAXIMUM)
  then result ++ [setting.matching_image_name]
  else if bool_decide (rescale_method = M_DIVIDE_BY_MEASUREMENT)
  then result ++ [setting.divisor_measurement]
  else if bool_decide (rescale_method = M_DIVIDE_BY_VALUE)
  then result ++ [setting.divisor_value]
  else result.

Definition is_aggregation_module (self : RescaleIntensity) : bool :=
  bool_decide (wants_automatic_high self = HIGH_ALL_IMAGES) ||
  bool_decide (wants_automatic_low self = LOW_ALL_IMAGES).

Definition divide_by_image_minimum (input_image : Image) : Py.result (list float) :=
  let data := pixel_data input_image in
  src_min ← Numpy.amin (Numpy.select data (mask input_image));
  divide data src_min.

Definition divide_by_image_maximum (input_image : Image) : Py.result (list float) :=
  let data := pixel_data input_image in
  src_max ← Numpy.amax (Numpy.select data (mask input_image));
  divide data src_max.

(** The values of [source_low], [source_high] and [source_scale]. *)
Record SourceRange : Type := {
  source_low : float;
  source_high : float;
  source_scale_min : float;
  source_scale_max : float;
}.

(** [get_source_range], with the dictionary of
    [get_dictionary(workspace.image_set_list)]; a value of the pair is
    [None] when the dictionary holds [None]. *)
Definition get_source_range (self : RescaleIntensity) (range : SourceRange)
    (input_image : Image) (d : dictionary) : Py.result (option float * option float) :=
  if bool_decide (wants_automatic_high self = CUSTOM_VALUE) &&
     bool_decide (wants_automatic_low self = CUSTOM_VALUE)
  then Returned (Some (source_scale_min range), Some (source_scale_max range))
  else
    let input_pixels :=
      if has_mask input_image
      then Numpy.select (pixel_data input_image) (mask input_image)
      else pixel_data input_image in
    src_min ←
      (if bool_decide (wants_automatic_low self = LOW_ALL_IMAGES) then
         match get_automatic_minimum d with
         | Some value => Returned value
         | None => Raised "KeyError"
         end
       else if bool_decide (wants_automatic_low self = LOW_EACH_IMAGE) then
         Some <$> Numpy.amin input_pixels
       else Returned (Some (source_low range)));
    src_max ←
      (if bool_decide (wants_automatic_high self = HIGH_ALL_IMAGES) then
         match get_automatic_maximum d with
         | Some value => Returned value
         | None => Raised "KeyError"
         end
       else if bool_decide (wants_automatic_high self = HIGH_EACH_IMAGE) then
         Some <$> Numpy.amax input_pixels
       else Returned (Some (source_high range)));
    Returned (src_min, src_max).

Section Upgrade.

(** [cellprofiler.setting.YES]. *)
Variable YES : string.

(** One round of the loop of [upgrade_settings] for revision 1. *)
Definition upgrade_choice (i : nat) (automatic : string) (setting_values : list string)
    : Py.result (list string) :=
  value ← Py.getitem setting_values i;
  Returned (<[i := if bool_decide (value = YES) then automatic else CUSTOM_VALUE]>
              setting_values).

(** [upgrade_settings]: the setting values, the revision number and
    [from_matlab] that it returns. *)
Definition upgrade_settings (setting_values : list string)
    (variable_revision_number : nat) : Py.result (list string * nat * bool) :=
  '(setting_values, variable_revision_number) ←
    (if bool_decide (variable_revision_number = 1) then
       setting_values ← upgrade_choice 3 LOW_EACH_IMAGE setting_values;
       setting_values ← upgrade_choice 4 HIGH_EACH_IMAGE setting_values;
       Returned (setting_values, 2)
     else Returned (setting_values, variable_revision_number));
  let '(setting_values, variable_revision_number) :=
    if bool_decide (variable_revision_number = 2)
    then (take 9 setting_values ++ drop 13 setting_values, 3)
    else (setting_values, variable_revision_number) in
  Returned (setting_values, variable_revision_number, false).

End Upgrade.

End RescaleIntensity.

(** * The vocabulary of the properties *)

(** The laws of a three-way comparison that is a total order. *)
Class CmpLaws (A : Type) `{Py.Cmp A} : Prop := {
  cmp_eq (x y : A) : Py.cmp x y = Eq ↔ x = y;
  cmp_antisym (x y : A) : Py.cmp y x = CompOpp (Py.cmp x y);
  cmp_trans (x y z : A) (c : comparison) :
    Py.cmp x y = c → Py.cmp y z = c → Py.cmp x z = c;
}.

(** The relation that a boolean test decides. *)
Definition holds {A : Type} (leb : A → A → bool) : relation A :=
  λ x y, leb x y = true.

(** The rows of the renumbering: for groups that are numbered from [k] on,
    each image number with the number of its group and its index there. *)
Fixpoint rows (k : nat) (gs : list (list nat)) : list (nat * (nat * nat)) :=
  match gs with
  | [] => []
  | ids :: gs' => zip ids ((λ j, (k, j)) <$> seq 1 (length ids)) ++ rows (S k) gs'
  end.

(** [x < y] in Python's order. *)
Definition precedes {A} `{Py.Cmp A} : relation A := λ x y, Py.cmp x y = Lt.

(** The image sets of the group with key [k], in arrival order. *)
Definition members (features : list string) (l : list cpmeas.ImageSetRecord)
    (k : cpmeas.GroupKey) : list cpmeas.ImageSetRecord :=
  filter (λ r, cpmeas.group_key features r = k) l.

(** The distinct keys of the image sets, in lexicographic order. *)
Definition sorted_keys (features : list string) (l : list cpmeas.ImageSetRecord)
    : list cpmeas.GroupKey :=
  Py.sorted (remove_dups (cpmeas.group_key features <$> l)).

(** The image sets laid out group after group, the groups in the order of
    their keys and each group in arrival order. *)
Definition canonical (features : list string) (l : list cpmeas.ImageSetRecord)
    : list cpmeas.ImageSetRecord :=
  concat (members features l <$> sorted_keys features l).

(** The order of two image sets by their keys. *)
Definition key_le (features : list string) (r1 r2 : cpmeas.ImageSetRecord) : bool :=
  Py.le (cpmeas.group_key features r1) (cpmeas.group_key features r2).

(** The image numbers of the groups, in the order of their keys. *)
Definition blocks (features : list string) (l : list cpmeas.ImageSetRecord)
    : list (list nat) :=
  (λ k, cpmeas.image_number <$> members features l k) <$> sorted_keys features l.

(** The features that [get_grouping_tags] names when grouping is wanted. *)
Definition tags (C_METADATA : string) (self : Groups.Groups) : list string :=
  (λ g, C_METADATA +:+ "_" +:+ g) <$> Groups.grouping_metadata self.

(** Image sets numbered 1, 2, ... in the order in which they are. *)
Definition renumbered (c : list cpmeas.ImageSetRecord) : list cpmeas.ImageSetRecord :=
  imap (λ j r, {| cpmeas.image_number := S j; cpmeas.metadata := cpmeas.metadata r |}) c.

(** One more value for an extremum that starts as [None]. *)
Definition accumulate (f : float → float → float) (acc : option float) (v : float)
    : option float :=
  Some (match acc with None => v | Some a => f a v end).

(** The extrema of the images that have no mask, in the order of the
    images. *)
Definition unmasked (extremum : list float → Py.result float) (images : list RescaleIntensity.Image)
    : list float :=
  omap (λ image,
          if RescaleIntensity.has_mask image then None
          else match extremum (RescaleIntensity.pixel_data image) with
               | Returned v => Some v
               | Raised _ => None
               end) images.

(** The pixels that [prepare_group] takes the extremum of are not none. *)
Definition has_pixels (image : RescaleIntensity.Image) : Prop :=
  (if RescaleIntensity.has_mask image
   then Numpy.select (RescaleIntensity.pixel_data image) (RescaleIntensity.mask image)
   else RescaleIntensity.pixel_data image) ≠ [].

(** An example: three image sets with the rows A, B and A, grouped by row. *)
Definition example_image_set (n : nat) (row : string) : cpmeas.ImageSetRecord :=
  {| cpmeas.image_number := n; cpmeas.metadata := {[ "Metadata_row" := row ]} |}.

Definition example_workspace : Groups.Workspace :=
  {| Groups.in_batch_mode := false;
     Groups.measurements :=
       {| cpmeas.feature_names := ["Metadata_row"];
          cpmeas.image_sets :=
            [example_image_set 1 "A"; example_image_set 2 "B"; example_image_set 3 "A"] |} |}.

Definition example_groups : Groups.Groups :=
  {| Groups.wants_groups := true; Groups.grouping_metadata := ["row"] |}.

Definition example_groups_no_keys : Groups.Groups :=
  {| Groups.wants_groups := true; Groups.grouping_metadata := [] |}.

(** The module set to group by a plate that the example has no metadata
    for, and a workspace without image sets. *)
Definition example_groups_by_plate : Groups.Groups :=
  {| Groups.wants_groups := true; Groups.grouping_metadata := ["plate"] |}.

Definition example_empty_workspace : Groups.Workspace :=
  {| Groups.in_batch_mode := false;
     Groups.measurements :=
       {| cpmeas.feature_names := ["Metadata_row"]; cpmeas.image_sets := [] |} |}.

(** An image without a mask and one with a mask. *)
Definition example_plain_image : RescaleIntensity.Image :=
  {| RescaleIntensity.pixel_data := [0.25; 0.5]%float;
     RescaleIntensity.mask := [true; true];
     RescaleIntensity.has_mask := false |}.

Definition example_masked_image : RescaleIntensity.Image :=
  {| RescaleIntensity.pixel_data := [0.75; 1]%float;
     RescaleIntensity.mask := [true; false];
     RescaleIntensity.has_mask := true |}.

Definition example_rescale : RescaleIntensity.RescaleIntensity :=
  {| RescaleIntensity.wants_automatic_low := RescaleIntensity.LOW_ALL_IMAGES;
     RescaleIntensity.wants_automatic_high := RescaleIntensity.HIGH_ALL_IMAGES |}.


(** Python's [int] on the strings that are one or more decimal digits,
    with a minus sign before them or none; another string is refused. *)
Fixpoint example_digits (s : string) (acc : Z) : option Z :=
  match s with
  | EmptyString => Some acc
  | String c s' =>
      let d := Ascii.nat_of_ascii c in
      if bool_decide (48 ≤ d ≤ 57)
      then example_digits s' (10 * acc + Z.of_nat (d - 48))%Z
      else None
  end.

Definition example_int (s : string) : Py.result Z :=
  let '(negative, digits) :=
    match s with
    | String c s' => if bool_decide (String c EmptyString = "-") then (true, s') else (false, s)
    | _ => (false, s)
    end in
  match digits with
  | EmptyString => Raised "ValueError"
  | _ =>
      match example_digits digits 0 with
      | Some n => Returned (if negative : bool then (- n)%Z else n)
      | None => Raised "ValueError"
      end
  end.

(** The setting values of a [Groups] module of revision 1 with two groups:
    each group has the name of an image before its metadata choice. *)
Definition example_setting_values : list string :=
  ["Yes"; "2"; "DNA"; "plate"; "DNA"; "well"].

(** * Properties of the embedding *)

(** ** Python's comparisons are total orders *)

Lemma CompOpp_swap (c d : comparison) : CompOpp c = d ↔ c = CompOpp d.
Proof. destruct c, d; simpl; split; congruence. Qed.

(** Transitivity of a comparison follows from that of [Lt], given the two
    other laws. *)
Lemma cmp_trans_from_lt {A} (cmp : A → A → comparison) :
  (∀ x y, cmp x y = Eq ↔ x = y) →
  (∀ x y, cmp y x = CompOpp (cmp x y)) →
  (∀ x y z, cmp x y = Lt → cmp y z = Lt → cmp x z = Lt) →
  ∀ x y z c, cmp x y = c → cmp y z = c → cmp x z = c.
Proof.
  intros Heq Hopp Hlt x y z [] Hxy Hyz.
  - apply Heq in Hxy, Hyz. subst. by apply Heq.
  - eauto.
  - rewrite Hopp, CompOpp_swap in Hxy, Hyz. simpl in *.
    rewrite Hopp, CompOpp_swap. simpl. eauto.
Qed.

Global Instance nat_cmp_laws : CmpLaws nat.
Proof.
  split; unfold Py.cmp, Py.nat_cmp.
  - intros x y. apply Nat.compare_eq_iff.
  - intros x y. apply Nat.compare_antisym.
  - intros x y z c Hxy Hyz. destruct c.
    + apply Nat.compare_eq_iff in Hxy, Hyz. apply Nat.compare_eq_iff. lia.
    + apply Nat.compare_lt_iff in Hxy, Hyz. apply Nat.compare_lt_iff. lia.
    + apply Nat.compare_gt_iff in Hxy, Hyz. apply Nat.compare_gt_iff. lia.
Qed.

Global Instance string_cmp_laws : CmpLaws string.
Proof.
  assert (Heq : ∀ x y : string, String.compare x y = Eq ↔ x = y).
  { intros x y. split; [apply String.compare_eq_iff|].
    intros ->. destruct (String.compare y y) eqn:E; [done| |];
      pose proof (String.compare_antisym y y) as Ha; rewrite E in Ha; done. }
  assert (Hopp : ∀ x y : string, String.compare y x = CompOpp (String.compare x y)).
  { intros x y. apply String.compare_antisym. }
  split; unfold Py.cmp, Py.string_cmp; [done|done|].
  apply cmp_trans_from_lt; [done|done|].
  intros x y z Hxy Hyz.
  apply OrderedTypeEx.String_as_OT.cmp_lt in Hxy, Hyz.
  apply OrderedTypeEx.String_as_OT.cmp_lt.
  eapply OrderedTypeEx.String_as_OT.lt_trans; eauto.
Qed.

Global Instance option_cmp_laws {A} `{CmpLaws A} : CmpLaws (option A).
Proof.
  split.
  - intros [x|] [y|]; unfold Py.cmp, Py.option_cmp; try done.
    rewrite cmp_eq. naive_solver.
  - intros [x|] [y|]; unfold Py.cmp, Py.option_cmp; try done. apply cmp_antisym.
  - intros [x|] [y|] [z|] c; unfold Py.cmp, Py.option_cmp; try congruence.
    apply cmp_trans.
Qed.

Global Instance list_cmp_laws {A} `{CmpLaws A} : CmpLaws (list A).
Proof.
  split; unfold Py.cmp at 1, Py.list_cmp.
  - intros x y. apply list_compare_refl, cmp_eq.
  - intros x y. apply list_compare_antisym; [apply cmp_eq|apply cmp_antisym].
  - intros x y z c. unfold Py.cmp, Py.list_cmp.
    apply list_compare_trans; [apply cmp_eq|apply cmp_trans|apply cmp_antisym].
Qed.

Global Instance prod_cmp_laws {A B} `{CmpLaws A, CmpLaws B} : CmpLaws (A * B).
Proof.
  assert (Hrefl : ∀ a : A, Py.cmp a a = Eq) by (intros a; by apply cmp_eq).
  assert (Heq : ∀ x y : A * B, Py.cmp x y = Eq ↔ x = y).
  { intros [a b] [a' b']. unfold Py.cmp at 1, Py.prod_cmp. simpl.
    destruct (Py.cmp a a') eqn:E.
    - apply cmp_eq in E as ->. rewrite cmp_eq. naive_solver.
    - split; [done|]. intros [= -> ->]. rewrite Hrefl in E. done.
    - split; [done|]. intros [= -> ->]. rewrite Hrefl in E. done. }
  assert (Hopp : ∀ x y : A * B, Py.cmp y x = CompOpp (Py.cmp x y)).
  { intros [a b] [a' b']. unfold Py.cmp at 1 2, Py.prod_cmp. simpl.
    rewrite (cmp_antisym a a'). destruct (Py.cmp a a'); simpl; try done.
    apply cmp_antisym. }
  split; [done|done|]. apply cmp_trans_from_lt; [done|done|].
  intros [a1 b1] [a2 b2] [a3 b3].
  unfold Py.cmp at 1 2 3, Py.prod_cmp. simpl.
  destruct (Py.cmp a1 a2) eqn:E12; [| |done].
  - apply cmp_eq in E12 as ->. destruct (Py.cmp a2 a3); [|done..].
    apply cmp_trans.
  - destruct (Py.cmp a2 a3) eqn:E23; [| |done].
    + apply cmp_eq in E23 as <-. by rewrite E12.
    + by rewrite (cmp_trans _ _ _ _ E12 E23).
Qed.

Section le_order.
Context {A : Type} `{CmpLaws A}.

Lemma le_total (x y : A) : Py.le x y = false → Py.le y x = true.
Proof.
  unfold Py.le. rewrite (cmp_antisym x y). by destruct (Py.cmp x y).
Qed.

Lemma le_trans (x y z : A) : Py.le x y = true → Py.le y z = true → Py.le x z = true.
Proof.
  unfold Py.le. intros Hxy Hyz.
  destruct (Py.cmp x y) eqn:E1; [| |done].
  - apply cmp_eq in E1 as ->. done.
  - destruct (Py.cmp y z) eqn:E2; [| |done].
    + apply cmp_eq in E2 as <-. by rewrite E1.
    + by rewrite (cmp_trans _ _ _ _ E1 E2).
Qed.

Lemma le_antisym (x y : A) : Py.le x y = true → Py.le y x = true → x = y.
Proof.
  unfold Py.le. rewrite (cmp_antisym x y).
  destruct (Py.cmp x y) eqn:E; simpl; try done.
  intros _ _. by apply cmp_eq.
Qed.

Lemma le_refl (x : A) : Py.le x x = true.
Proof.
  unfold Py.le. assert (Py.cmp x x = Eq) as -> by by apply cmp_eq. done.
Qed.

Lemma le_ne_lt (x y : A) : Py.le x y = true → x ≠ y → Py.cmp x y = Lt.
Proof.
  unfold Py.le. destruct (Py.cmp x y) eqn:E; try done.
  apply cmp_eq in E. done.
Qed.
End le_order.

(** ** The stable sort *)

Section stable_sort.
Context {A : Type} (leb : A → A → bool).

Lemma insort_Permutation (x : A) (l : list A) : Py.insort leb x l ≡ₚ x :: l.
Proof.
  induction l as [|y l IH]; simpl; [done|].
  destruct (leb x y); [done|]. rewrite IH. apply Permutation_swap.
Qed.

Lemma stable_sort_Permutation (l : list A) : Py.stable_sort leb l ≡ₚ l.
Proof.
  induction l as [|x l IH]; simpl; [done|].
  rewrite insort_Permutation. by f_equiv.
Qed.

Lemma stable_sort_length (l : list A) : length (Py.stable_sort leb l) = length l.
Proof. apply Permutation_length, stable_sort_Permutation. Qed.

(** A sorted input is left as it is. *)
Lemma stable_sort_id (l : list A) :
  Sorted (holds leb) l → Py.stable_sort leb l = l.
Proof.
  induction 1 as [|x l Hl IH Hhd]; simpl; [done|].
  rewrite IH. destruct Hhd as [|y l Hxy]; simpl; [done|].
  unfold holds in Hxy. by rewrite Hxy.
Qed.

Hypothesis total : ∀ x y, leb x y = false → leb y x = true.

Lemma insort_Sorted (x : A) (l : list A) :
  Sorted (holds leb) l → Sorted (holds leb) (Py.insort leb x l).
Proof.
  induction 1 as [|y l Hl IH Hhd]; simpl.
  - by repeat constructor.
  - destruct (leb x y) eqn:E.
    + by repeat constructor.
    + constructor; [done|].
      destruct Hhd as [|z l Hyz]; simpl.
      * constructor. by apply total.
      * destruct (leb x z); constructor; [by apply total|done].
Qed.

Lemma stable_sort_Sorted (l : list A) : Sorted (holds leb) (Py.stable_sort leb l).
Proof.
  induction l as [|x l IH]; simpl; [constructor|]. by apply insort_Sorted.
Qed.
End stable_sort.

Section sorted.
Context {A : Type} `{CmpLaws A}.

Global Instance holds_le_trans : Transitive (holds (@Py.le A _)).
Proof. intros x y z. apply le_trans. Qed.

Global Instance holds_le_antisym : AntiSymm (=) (holds (@Py.le A _)).
Proof. intros x y. apply le_antisym. Qed.

Lemma sorted_Permutation (l : list A) : Py.sorted l ≡ₚ l.
Proof. apply stable_sort_Permutation. Qed.

Lemma sorted_Sorted (l : list A) : Sorted (holds Py.le) (Py.sorted l).
Proof. apply stable_sort_Sorted, le_total. Qed.

Lemma sorted_StronglySorted (l : list A) : StronglySorted (holds Py.le) (Py.sorted l).
Proof. apply Sorted_StronglySorted; [apply _|apply sorted_Sorted]. Qed.

Lemma sorted_id (l : list A) : Sorted (holds Py.le) l → Py.sorted l = l.
Proof. apply stable_sort_id. Qed.

(** Two lists with the same elements are sorted to the same list. *)
Lemma sorted_unique (l1 l2 : list A) : l1 ≡ₚ l2 → Py.sorted l1 = Py.sorted l2.
Proof.
  intros Hp. apply (Sorted_unique (holds Py.le)); [apply sorted_Sorted..|].
  by rewrite !sorted_Permutation.
Qed.
End sorted.

(** ** numpy *)

Lemma le_nat_pair (a b c d : nat) :
  Py.le (a, b) (c, d) = true ↔ a < c ∨ (a = c ∧ b ≤ d).
Proof.
  unfold Py.le, Py.cmp, Py.prod_cmp, Py.cmp, Py.nat_cmp. simpl.
  destruct (Nat.compare_spec a c) as [->|?|?].
  - destruct (Nat.compare_spec b d); split; (done || lia).
  - split; [lia|done].
  - split; [done|lia].
Qed.

Lemma Sorted_seq (R : relation nat) (a n : nat) :
  (∀ i, a ≤ i → S i < a + n → R i (S i)) → Sorted R (seq a n).
Proof.
  revert a. induction n as [|n IH]; intros a HR; simpl; constructor.
  - apply IH. intros i ??. apply HR; lia.
  - destruct n as [|n]; simpl; constructor. apply HR; lia.
Qed.

Lemma Sorted_lookup_next {A} (R : relation A) (l : list A) (i : nat) (x y : A) :
  Sorted R l → l !! i = Some x → l !! S i = Some y → R x y.
Proof.
  intros Hl. revert i. induction Hl as [|z l Hl IH Hhd]; intros i; [done|].
  destruct i as [|i]; simpl.
  - intros [= ->] Hy. destruct Hhd as [|z' l' Hz]; simpl in *; congruence.
  - apply IH.
Qed.

Lemma take_seq {A} (a : list A) : Numpy.take a (seq 0 (length a)) = Returned a.
Proof.
  unfold Numpy.take.
  assert (mapM (λ i, a !! i) (seq 0 (length a)) = Some a) as ->; [|done].
  apply mapM_Some, Forall2_lookup. intros i.
  destruct (decide (i < length a)) as [Hi|Hi].
  - rewrite lookup_seq_lt by done. simpl.
    destruct (lookup_lt_is_Some_2 a i Hi) as [x Hx]. rewrite Hx. by constructor.
  - rewrite lookup_seq_ge, lookup_ge_None_2 by lia. constructor.
Qed.

(** Arrays that are in order already are left in place by [lexsort]. *)
Lemma lexsort_sorted (secondary primary : list nat) :
  length secondary = length primary →
  Sorted (holds Py.le) (zip primary secondary) →
  Numpy.lexsort secondary primary = seq 0 (length primary).
Proof.
  intros Hlen Hs. unfold Numpy.lexsort. apply stable_sort_id, Sorted_seq.
  intros i _ Hi. simpl in Hi. unfold holds.
  destruct (lookup_lt_is_Some_2 primary i) as [a Ha]; [lia|].
  destruct (lookup_lt_is_Some_2 primary (S i)) as [a' Ha']; [lia|].
  destruct (lookup_lt_is_Some_2 secondary i) as [b Hb]; [lia|].
  destruct (lookup_lt_is_Some_2 secondary (S i)) as [b' Hb']; [lia|].
  rewrite (list_lookup_total_correct _ _ _ Ha), (list_lookup_total_correct _ _ _ Ha'),
    (list_lookup_total_correct _ _ _ Hb), (list_lookup_total_correct _ _ _ Hb').
  apply (Sorted_lookup_next _ _ i _ _ Hs); apply lookup_zip_with_Some; eauto.
Qed.

Lemma foldl_max_le (a : list nat) (x : nat) :
  x ≤ foldl Nat.max x a ∧ Forall (λ y, y ≤ foldl Nat.max x a) a.
Proof.
  revert x. induction a as [|y a IH]; intros x; simpl; [by split|].
  destruct (IH (x `max` y)) as [H1 H2]. split; [lia|]. constructor; [lia|done].
Qed.

Lemma max_Returned (a : list nat) :
  a ≠ [] → ∃ top, Numpy.max a = Returned top ∧ Forall (λ y, y ≤ top) a.
Proof.
  destruct a as [|x a]; [done|]. intros _. eexists. split; [done|].
  destruct (foldl_max_le a x). by constructor.
Qed.

Lemma put_Returned {A} (index : list nat) (values a : list A) :
  Forall (λ i, i < length a) index →
  ∃ a', Numpy.put a index values = Returned a' ∧ length a' = length a.
Proof.
  revert values a. induction index as [|i index IH]; intros values a Hi; simpl.
  - by exists a.
  - destruct values as [|v values]; [by exists a|].
    inversion_clear Hi as [|?? Hlt Hrest].
    rewrite decide_True by done.
    destruct (IH values (<[i:=v]> a)) as (a' & -> & Hlen).
    + by rewrite length_insert.
    + exists a'. by rewrite Hlen, length_insert.
Qed.

(** After [a[index] = values] with distinct positions, each position of
    [index] holds its value and the others hold what they held. *)
Lemma put_lookup {A} (index : list nat) (values a a' : list A) :
  NoDup index → length values = length index →
  Numpy.put a index values = Returned a' →
  (∀ j i, index !! j = Some i → a' !! i = values !! j) ∧
  (∀ i, i ∉ index → a' !! i = a !! i).
Proof.
  revert values a. induction index as [|i index IH]; intros values a Hnd Hlen; simpl.
  - intros [= <-]. split; [done|done].
  - destruct values as [|v values]; [done|].
    destruct (decide (i < length a)) as [Hi|]; [|done].
    apply NoDup_cons in Hnd as [Hni Hnd]. intros Hput.
    destruct (IH values (<[i:=v]> a) Hnd) as [H1 H2]; [by simplify_eq/=|done|].
    split.
    + intros [|j] i'; simpl.
      * intros [= <-]. rewrite H2 by done. by rewrite list_lookup_insert_eq.
      * apply H1.
    + intros i' Hni'. apply not_elem_of_cons in Hni' as [??].
      rewrite H2 by done. by rewrite list_lookup_insert_ne.
Qed.

(** ** The arrays of [prepare_run] *)

Lemma rows_block_snd (k : nat) (ids : list nat) :
  (zip ids ((λ j, (k, j)) <$> seq 1 (length ids))).*2 = (λ j, (k, j)) <$> seq 1 (length ids).
Proof. apply snd_zip. by rewrite length_fmap, length_seq. Qed.

Lemma rows_image_numbers (k : nat) (gs : list (list nat)) : (rows k gs).*1 = concat gs.
Proof.
  revert k. induction gs as [|ids gs IH]; intros k; simpl; [done|].
  rewrite fmap_app, IH, fst_zip; [done|]. by rewrite length_fmap, length_seq.
Qed.

Lemma rows_snd (k : nat) (gs : list (list nat)) :
  (rows k gs).*2 =
  zip (concat (imap (λ i ids, Numpy.ones_times (length ids) (i + k)) gs))
      (concat ((λ ids, Numpy.arange_plus_1 (length ids)) <$> gs)).
Proof.
  revert k. induction gs as [|ids gs IH]; intros k; [done|].
  rewrite imap_cons. simpl. rewrite fmap_app, rows_block_snd, IH.
  unfold Numpy.ones_times, Numpy.arange_plus_1.
  rewrite zip_with_app by by rewrite length_replicate, length_seq.
  f_equal.
  - generalize 1. induction (length ids) as [|n IHn]; intros s; simpl; [done|].
    by rewrite IHn.
  - do 2 f_equal. apply imap_ext. intros i x _. simpl. f_equal. lia.
Qed.

Lemma rows_lengths (k : nat) (gs : list (list nat)) :
  length (concat (imap (λ i ids, Numpy.ones_times (length ids) (i + k)) gs)) =
    length (concat gs) ∧
  length (concat ((λ ids, Numpy.arange_plus_1 (length ids)) <$> gs)) =
    length (concat gs).
Proof.
  revert k. induction gs as [|ids gs IH]; intros k; [done|].
  destruct (IH (S k)) as [H1 H2].
  rewrite imap_cons, fmap_cons, !concat_cons, !length_app.
  unfold Numpy.ones_times at 1, Numpy.arange_plus_1 at 1.
  rewrite length_replicate, length_seq, H2. split; [|done]. f_equal.
  rewrite <-H1. do 2 f_equal. apply imap_ext. intros i x _. simpl. f_equal. lia.
Qed.

Lemma rows_group_numbers (k : nat) (gs : list (list nat)) :
  (λ r, r.2.1) <$> rows k gs =
  concat (imap (λ i ids, Numpy.ones_times (length ids) (i + k)) gs).
Proof.
  destruct (rows_lengths k gs) as [H1 H2].
  trans ((rows k gs).*2.*1); [by rewrite <-list_fmap_compose|].
  rewrite rows_snd. apply fst_zip. lia.
Qed.

Lemma rows_group_indexes (k : nat) (gs : list (list nat)) :
  (λ r, r.2.2) <$> rows k gs =
  concat ((λ ids, Numpy.arange_plus_1 (length ids)) <$> gs).
Proof.
  destruct (rows_lengths k gs) as [H1 H2].
  trans ((rows k gs).*2.*2); [by rewrite <-list_fmap_compose|].
  rewrite rows_snd. apply snd_zip. lia.
Qed.

Lemma rows_number_ge (k : nat) (gs : list (list nat)) (r : nat * (nat * nat)) :
  r ∈ rows k gs → k ≤ r.2.1.
Proof.
  revert k. induction gs as [|ids gs IH]; intros k; simpl; [by intros ?%elem_of_nil|].
  intros [Hr|Hr]%elem_of_app.
  - assert (r.2 ∈ (zip ids ((λ j, (k, j)) <$> seq 1 (length ids))).*2) as Hr2
      by by apply list_elem_of_fmap_2.
    rewrite rows_block_snd in Hr2. apply list_elem_of_fmap in Hr2 as (j & -> & _).
    done.
  - apply IH in Hr. lia.
Qed.

(** The group numbers and group indexes are in lexicographic order as they
    are built. *)
Lemma rows_sorted (k : nat) (gs : list (list nat)) :
  StronglySorted (holds Py.le) (rows k gs).*2.
Proof.
  revert k. induction gs as [|ids gs IH]; intros k; simpl; [constructor|].
  rewrite fmap_app, rows_block_snd. apply StronglySorted_app. split_and!.
  - intros x1 x2 (j & -> & _)%list_elem_of_fmap (r & -> & Hr)%list_elem_of_fmap.
    apply rows_number_ge in Hr. destruct r as [? [a b]]. simpl in *.
    apply le_nat_pair. lia.
  - apply (StronglySorted_fmap _ le).
    + intros x y Hxy. apply le_nat_pair. lia.
    + apply Sorted_StronglySorted; [apply _|].
      apply Sorted_seq. intros; lia.
  - apply IH.
Qed.

Lemma hstack_Returned {A} (arrays : list (list A)) :
  arrays ≠ [] → Numpy.hstack arrays = Returned (concat arrays).
Proof. by destruct arrays. Qed.

Ltac step_bind := unfold mbind, result_bind, Py.bind; simpl.

(** [prepare_run]'s arrays for groupings that are not empty: the columns
    of the rows of the sorted groupings, and the renumbering table. *)
Lemma arrays_Returned (g : list (cpmeas.GroupKey * list nat)) :
  g ≠ [] → concat (Py.sorted g).*2 ≠ [] →
  ∃ top nin,
    Numpy.max (concat (Py.sorted g).*2) = Returned top ∧
    Numpy.put (Numpy.zeros (top + 1)) (concat (Py.sorted g).*2)
      (Numpy.arange_plus_1 (length (concat (Py.sorted g).*2))) = Returned nin ∧
    Groups.arrays g =
      Returned {| Groups.ordering := concat (Py.sorted g).*2;
                  Groups.group_numbers := (λ r, r.2.1) <$> rows 1 (Py.sorted g).*2;
                  Groups.group_indexes := (λ r, r.2.2) <$> rows 1 (Py.sorted g).*2;
                  Groups.new_image_numbers := nin |}.
Proof.
  intros Hg Hne. unfold Groups.arrays.
  assert (Py.sorted g ≠ []) as Hgs.
  { intros Hnil. apply Hg, Permutation_nil_r. by rewrite <-Hnil, sorted_Permutation. }
  set (gs := Py.sorted g) in *.
  destruct (max_Returned _ Hne) as (top & Hmax & Hle).
  destruct (put_Returned (concat gs.*2)
              (Numpy.arange_plus_1 (length (concat gs.*2))) (Numpy.zeros (top + 1)))
    as (nin & Hput & _).
  { unfold Numpy.zeros. rewrite length_replicate.
    eapply Forall_impl; [done|]. simpl. lia. }
  exists top, nin. split_and!; [done..|].
  set (gn := (λ r, r.2.1) <$> rows 1 gs.*2).
  set (gi := (λ r, r.2.2) <$> rows 1 gs.*2).
  assert (Numpy.hstack (imap (λ i g0, Numpy.ones_times (length g0.2) (i + 1)) gs)
          = Returned gn) as ->.
  { rewrite hstack_Returned by by destruct gs.
    unfold gn. by rewrite rows_group_numbers, imap_fmap. }
  step_bind.
  assert (Numpy.hstack ((λ g0, Numpy.arange_plus_1 (length g0.2)) <$> gs)
          = Returned gi) as ->.
  { rewrite hstack_Returned by by destruct gs.
    unfold gi. by rewrite rows_group_indexes, <-list_fmap_compose. }
  step_bind.
  rewrite hstack_Returned by by destruct gs. step_bind.
  assert (length gn = length (concat gs.*2)) as Hlgn.
  { unfold gn. by rewrite length_fmap, <-(rows_image_numbers 1), length_fmap. }
  assert (length gi = length (concat gs.*2)) as Hlgi.
  { unfold gi. by rewrite length_fmap, <-(rows_image_numbers 1), length_fmap. }
  rewrite lexsort_sorted.
  - rewrite take_seq. step_bind.
    rewrite Hlgn, <-Hlgi, take_seq. step_bind.
    rewrite Hmax. step_bind.
    rewrite Hlgi, take_seq. step_bind.
    rewrite Hput. done.
  - lia.
  - apply StronglySorted_Sorted.
    assert (zip gn gi = (rows 1 gs.*2).*2) as ->; [|apply rows_sorted].
    rewrite <-(zip_fst_snd (rows 1 gs.*2).*2). unfold gn, gi.
    by rewrite <-!list_fmap_compose.
Qed.

(** ** The groupings *)

Section order_facts.
Context {A : Type} `{CmpLaws A}.

Lemma StronglySorted_le_lt (l : list A) :
  StronglySorted (holds Py.le) l → NoDup l → StronglySorted precedes l.
Proof.
  induction 1 as [|x l Hl IH Hx]; intros Hnd; constructor.
  - apply IH. by apply NoDup_cons in Hnd as [??].
  - apply NoDup_cons in Hnd as [Hni _].
    apply Forall_forall. intros y Hy. apply le_ne_lt.
    + by eapply Forall_forall in Hx.
    + intros ->. done.
Qed.

Lemma precedes_not_le (x y : A) : precedes x y → Py.le y x = false.
Proof.
  unfold precedes, Py.le. rewrite (cmp_antisym x y). by intros ->.
Qed.

Lemma precedes_le (x y : A) : precedes x y → Py.le x y = true.
Proof. unfold precedes, Py.le. by intros ->. Qed.
End order_facts.

Section insort_app.
Context {A : Type} (leb : A → A → bool).

Lemma insort_app (x : A) (l1 l2 : list A) :
  Forall (λ y, leb x y = false) l1 →
  (∀ y, head l2 = Some y → leb x y = true) →
  Py.insort leb x (l1 ++ l2) = l1 ++ x :: l2.
Proof.
  intros H1 H2. induction H1 as [|y l1 Hy _ IH]; simpl.
  - destruct l2 as [|y l2]; simpl; [done|]. by rewrite H2.
  - by rewrite Hy, IH.
Qed.
End insort_app.

Lemma concat_nil_fmap {A B} (f : A → list B) (l : list A) :
  (∀ x, x ∈ l → f x = []) → concat (f <$> l) = [].
Proof.
  induction l as [|x l IH]; intros Hf; csimpl; [done|].
  rewrite Hf by left. rewrite IH; [done|]. intros y Hy. apply Hf. by right.
Qed.

Lemma elem_of_concat {A} (x : A) (ls : list (list A)) :
  x ∈ concat ls ↔ ∃ l, x ∈ l ∧ l ∈ ls.
Proof.
  induction ls as [|l ls IH]; simpl.
  - split; [by intros ?%elem_of_nil|]. by intros (l & _ & ?%elem_of_nil).
  - rewrite elem_of_app, IH. split.
    + intros [?|(l' & ? & ?)]; [exists l; split; [done|by left]|].
      exists l'. split; [done|by right].
    + intros (l' & Hx & [->|?]%elem_of_cons); [by left|]. right. by exists l'.
Qed.

Lemma fmap_concat_fmap {A B C} (f : B → C) (g : A → list B) (l : list A) :
  f <$> concat (g <$> l) = concat ((λ x, f <$> g x) <$> l).
Proof.
  induction l as [|x l IH]; csimpl; [done|]. by rewrite fmap_app, IH.
Qed.

Section canonical.
Variable features : list string.

Abbreviation key := (cpmeas.group_key features).

Lemma members_cons_eq r l : members features (r :: l) (key r) = r :: members features l (key r).
Proof. unfold members. by rewrite filter_cons_True. Qed.

Lemma members_cons_ne r l k : k ≠ key r → members features (r :: l) k = members features l k.
Proof. intros Hk. unfold members. by rewrite filter_cons_False. Qed.

Lemma members_key l k r : r ∈ members features l k → key r = k ∧ r ∈ l.
Proof. unfold members. rewrite list_elem_of_filter. done. Qed.

(** Laying out the groups in the order of their keys is sorting the image
    sets by key with a stable sort. *)
Lemma concat_members_stable_sort (ks : list cpmeas.GroupKey) (l : list cpmeas.ImageSetRecord) :
  StronglySorted precedes ks → (∀ r, r ∈ l → key r ∈ ks) →
  concat (members features l <$> ks) = Py.stable_sort (key_le features) l.
Proof.
  intros Hks. induction l as [|x l IH]; intros Hcover.
  - simpl. by apply concat_nil_fmap.
  - simpl. rewrite <-IH by (intros r Hr; apply Hcover; by right).
    destruct (list_elem_of_split ks (key x)) as (ks1 & ks2 & ->);
      [apply Hcover; by left|].
    apply StronglySorted_app in Hks as (Hcross & Hks1 & Hks2).
    apply StronglySorted_cons in Hks2 as [Hgt Hks2].
    assert (∀ k, k ∈ ks1 → precedes k (key x)) as Hlt1.
    { intros k Hk. apply Hcross; [done|]. by left. }
    assert (∀ k, k ∈ ks2 → precedes (key x) k) as Hlt2.
    { intros k Hk. by eapply Forall_forall in Hgt. }
    assert (∀ k : cpmeas.GroupKey, precedes k k → False) as Hirr.
    { intros k Hk. unfold precedes in Hk.
      assert (Py.cmp k k = Eq) by by apply cmp_eq. congruence. }
    rewrite !fmap_app, !concat_app, !fmap_cons, !concat_cons.
    rewrite members_cons_eq.
    rewrite (list_fmap_ext (members features (x :: l)) (members features l) ks1).
    2:{ intros _ k Hk%list_elem_of_lookup_2. apply members_cons_ne.
        intros ->. eapply Hirr, Hlt1, Hk. }
    rewrite (list_fmap_ext (members features (x :: l)) (members features l) ks2).
    2:{ intros _ k Hk%list_elem_of_lookup_2. apply members_cons_ne.
        intros ->. eapply Hirr, Hlt2, Hk. }
    symmetry. apply insort_app.
    + apply Forall_forall. intros y Hy.
      apply elem_of_concat in Hy as (b & Hy & Hb).
      apply list_elem_of_fmap in Hb as (k & -> & Hk).
      apply members_key in Hy as [<- _]. unfold key_le.
      apply precedes_not_le. by apply Hlt1.
    + intros y Hy. apply head_Some_elem_of in Hy.
      unfold key_le. apply elem_of_app in Hy as [Hy|Hy].
      * apply members_key in Hy as [-> _]. apply le_refl.
      * apply elem_of_concat in Hy as (b & Hy & Hb).
        apply list_elem_of_fmap in Hb as (k & -> & Hk).
        apply members_key in Hy as [<- _]. apply precedes_le. by apply Hlt2.
Qed.
End canonical.

Section groupings.
Variable features : list string.

Lemma sorted_keys_sorted (l : list cpmeas.ImageSetRecord) :
  StronglySorted precedes (sorted_keys features l).
Proof.
  apply StronglySorted_le_lt; [apply sorted_StronglySorted|].
  unfold sorted_keys. rewrite sorted_Permutation. apply NoDup_remove_dups.
Qed.

Lemma sorted_keys_NoDup (l : list cpmeas.ImageSetRecord) :
  NoDup (sorted_keys features l).
Proof.
  unfold sorted_keys. rewrite sorted_Permutation. apply NoDup_remove_dups.
Qed.

Lemma elem_of_sorted_keys (l : list cpmeas.ImageSetRecord) (k : cpmeas.GroupKey) :
  k ∈ sorted_keys features l ↔ ∃ r, r ∈ l ∧ cpmeas.group_key features r = k.
Proof.
  unfold sorted_keys.
  rewrite sorted_Permutation, elem_of_remove_dups, list_elem_of_fmap.
  split; intros (r & ? & ?); exists r; by split.
Qed.

Lemma canonical_stable_sort (l : list cpmeas.ImageSetRecord) :
  canonical features l = Py.stable_sort (key_le features) l.
Proof.
  apply concat_members_stable_sort; [apply sorted_keys_sorted|].
  intros r Hr. apply elem_of_sorted_keys. eauto.
Qed.

Lemma canonical_Permutation (l : list cpmeas.ImageSetRecord) :
  canonical features l ≡ₚ l.
Proof. rewrite canonical_stable_sort. apply stable_sort_Permutation. Qed.

(** The sorted groupings are the groups of the sorted keys. *)
Lemma sorted_get_groupings (m : cpmeas.Measurements) :
  Py.sorted (cpmeas.get_groupings m features) =
  (λ k, (k, cpmeas.image_number <$> members features (cpmeas.image_sets m) k))
    <$> sorted_keys features (cpmeas.image_sets m).
Proof.
  unfold cpmeas.get_groupings, sorted_keys, members.
  set (grp := λ k : cpmeas.GroupKey, (k, cpmeas.image_number <$>
    filter (λ r, cpmeas.group_key features r = k) (cpmeas.image_sets m))).
  set (dk := remove_dups (cpmeas.group_key features <$> cpmeas.image_sets m)).
  apply (Sorted_unique (holds Py.le)).
  - apply sorted_Sorted.
  - apply (Sorted_fmap _ (holds Py.le)); [|apply sorted_Sorted].
    intros x y. unfold holds, Py.le, grp.
    unfold Py.cmp at 2, Py.prod_cmp. simpl.
    destruct (Py.cmp x y) eqn:E; try done.
    apply cmp_eq in E as ->. intros _.
    by rewrite (proj2 (cmp_eq (A:=list nat) _ _) eq_refl).
  - rewrite sorted_Permutation. apply fmap_Permutation.
    symmetry. apply sorted_Permutation.
Qed.
End groupings.

Lemma concat_blocks (features : list string) (l : list cpmeas.ImageSetRecord) :
  concat (blocks features l) = cpmeas.image_number <$> canonical features l.
Proof. unfold blocks, canonical. by rewrite fmap_concat_fmap. Qed.

Section partition.
Variable C_METADATA : string.

Lemma get_groupings_Some (self : Groups.Groups) (workspace : Groups.Workspace) :
  Groups.wants_groups self = true →
  tags C_METADATA self ⊆ cpmeas.feature_names (Groups.measurements workspace) →
  Groups.get_groupings C_METADATA self workspace =
    Some (tags C_METADATA self, cpmeas.get_groupings (Groups.measurements workspace) (tags C_METADATA self)).
Proof.
  intros Hw Hsub. unfold Groups.get_groupings, Groups.get_grouping_tags.
  rewrite Hw. simpl. fold (tags C_METADATA self).
  destruct (existsb _ _) eqn:E; [|done].
  apply existsb_exists in E as (key & Hk%list_elem_of_In & Hn).
  apply bool_decide_eq_true in Hn. destruct Hn. by apply Hsub.
Qed.

Lemma get_groupings_None (self : Groups.Groups) (workspace : Groups.Workspace)
    (key : string) :
  key ∈ tags C_METADATA self →
  key ∉ cpmeas.feature_names (Groups.measurements workspace) →
  Groups.get_groupings C_METADATA self workspace = None.
Proof.
  intros Hk Hn. unfold Groups.get_groupings, Groups.get_grouping_tags.
  destruct (Groups.wants_groups self); simpl; [|done]. fold (tags C_METADATA self).
  destruct (existsb _ _) eqn:E; [done|].
  assert (existsb (λ key, bool_decide
    (key ∉ cpmeas.feature_names (Groups.measurements workspace))) (tags C_METADATA self) = true)
    as E'; [|congruence].
  apply existsb_exists. exists key. split; [by apply list_elem_of_In|].
  by apply bool_decide_eq_true.
Qed.

(** With grouping wanted, the keys among the feature names and at least
    one image set, [prepare_run] gets its arrays. *)
Lemma partition_Returned (self : Groups.Groups) (workspace : Groups.Workspace) :
  let l := cpmeas.image_sets (Groups.measurements workspace) in
  Groups.wants_groups self = true →
  tags C_METADATA self ⊆ cpmeas.feature_names (Groups.measurements workspace) →
  l ≠ [] →
  ∃ top nin,
    Numpy.max (cpmeas.image_number <$> canonical (tags C_METADATA self) l) = Returned top ∧
    Numpy.put (Numpy.zeros (top + 1)) (cpmeas.image_number <$> canonical (tags C_METADATA self) l)
      (Numpy.arange_plus_1 (length l)) = Returned nin ∧
    Groups.partition C_METADATA self workspace =
      Returned (Some
        {| Groups.ordering := cpmeas.image_number <$> canonical (tags C_METADATA self) l;
           Groups.group_numbers := (λ r, r.2.1) <$> rows 1 (blocks (tags C_METADATA self) l);
           Groups.group_indexes := (λ r, r.2.2) <$> rows 1 (blocks (tags C_METADATA self) l);
           Groups.new_image_numbers := nin |}).
Proof.
  intros l Hw Hsub Hl. unfold Groups.partition.
  rewrite get_groupings_Some by done.
  assert ((Py.sorted (cpmeas.get_groupings (Groups.measurements workspace)
             (tags C_METADATA self))).*2 = blocks (tags C_METADATA self) l) as Hb.
  { rewrite sorted_get_groupings. unfold blocks. by rewrite <-list_fmap_compose. }
  assert (length (cpmeas.image_number <$> canonical (tags C_METADATA self) l) = length l) as Hlen.
  { by rewrite length_fmap, canonical_Permutation. }
  destruct (arrays_Returned
    (cpmeas.get_groupings (Groups.measurements workspace) (tags C_METADATA self)))
    as (top & nin & Hmax & Hput & ->).
  - unfold cpmeas.get_groupings. fold l. destruct l as [|r l']; [done|].
    intros Hnil%fmap_nil_inv.
    assert (cpmeas.group_key (tags C_METADATA self) r ∈ @nil cpmeas.GroupKey) as Hin.
    { rewrite <-Hnil, elem_of_remove_dups, fmap_cons. by left. }
    by apply elem_of_nil in Hin.
  - rewrite Hb, concat_blocks. intros Hnil.
    apply (f_equal length) in Hnil. rewrite Hlen in Hnil. by destruct l.
  - rewrite Hb, concat_blocks in *. rewrite Hlen in Hput.
    exists top, nin. split_and!; [done..|]. done.
Qed.
End partition.

(** ** The rows and the groups *)

Lemma zip_rows (k : nat) (gs : list (list nat)) :
  zip (rows k gs).*1 (zip ((λ r, r.2.1) <$> rows k gs) ((λ r, r.2.2) <$> rows k gs))
  = rows k gs.
Proof.
  induction (rows k gs) as [|[id [g i]] l IH]; csimpl; [done|]. by rewrite IH.
Qed.

Lemma block_number (k : nat) (ids : list nat) (r : nat * (nat * nat)) :
  r ∈ zip ids ((λ j, (k, j)) <$> seq 1 (length ids)) → r.2.1 = k.
Proof.
  intros Hr.
  assert (r.2 ∈ (zip ids ((λ j, (k, j)) <$> seq 1 (length ids))).*2) as Hr2
    by by apply list_elem_of_fmap_2.
  rewrite rows_block_snd in Hr2. by apply list_elem_of_fmap in Hr2 as (j & -> & _).
Qed.

Lemma filter_all {A} (P : A → Prop) `{∀ x, Decision (P x)} (l : list A) :
  (∀ x, x ∈ l → P x) → filter P l = l.
Proof.
  induction l as [|x l IH]; intros HP; [done|].
  rewrite filter_cons_True by (apply HP; by left).
  rewrite IH; [done|]. intros y Hy. apply HP. by right.
Qed.

Lemma filter_none {A} (P : A → Prop) `{∀ x, Decision (P x)} (l : list A) :
  (∀ x, x ∈ l → ¬ P x) → filter P l = [].
Proof.
  induction l as [|x l IH]; intros HP; [done|].
  rewrite filter_cons_False by (apply HP; by left).
  apply IH. intros y Hy. apply HP. by right.
Qed.

(** The rows of one group number are the image numbers of that group, in
    the order of the group, with the indexes 1, 2, ... *)
Lemma rows_filter (k i : nat) (gs : list (list nat)) (ids : list nat) :
  gs !! i = Some ids →
  filter (λ r, r.2.1 = k + i) (rows k gs) =
  zip ids ((λ j, (k + i, j)) <$> seq 1 (length ids)).
Proof.
  revert k i. induction gs as [|ids0 gs IH]; intros k i; [done|].
  simpl. rewrite filter_app. destruct i as [|i]; simpl.
  - intros [= ->]. rewrite Nat.add_0_r.
    rewrite filter_all by apply block_number.
    rewrite filter_none; [by rewrite app_nil_r|].
    intros r Hr%rows_number_ge. lia.
  - intros Hi. rewrite filter_none.
    2:{ intros r Hr%block_number. lia. }
    simpl. replace (k + S i) with (S k + i) by lia. by apply IH.
Qed.

(** Each image set of the canonical order has, in its row, its image
    number and the position of its key among the sorted keys. *)
Lemma rows_members (features : list string) (l : list cpmeas.ImageSetRecord)
    (k : nat) (ks : list cpmeas.GroupKey) :
  Forall2 (λ r row, row.1 = cpmeas.image_number r ∧
                    ∃ i, ks !! i = Some (cpmeas.group_key features r) ∧ row.2.1 = k + i)
    (concat (members features l <$> ks))
    (rows k ((λ k', cpmeas.image_number <$> members features l k') <$> ks)).
Proof.
  revert k. induction ks as [|k0 ks IH]; intros k; csimpl; [constructor|].
  apply Forall2_app.
  - assert (∀ r, r ∈ members features l k0 → cpmeas.group_key features r = k0) as Hk.
    { intros r Hr. by apply members_key in Hr as [? _]. }
    revert Hk. generalize (members features l k0) as b. intros b Hk.
    rewrite length_fmap. generalize 1 as s.
    induction b as [|r b IHb]; intros s; csimpl; constructor.
    + split; [done|]. exists 0. simpl. rewrite Hk by left. split; [done|lia].
    + apply IHb. intros r' Hr'. apply Hk. by right.
  - eapply Forall2_impl; [apply (IH (S k))|].
    intros r row (Hid & i & Hi & Hn). split; [done|].
    exists (S i). split; [done|lia].
Qed.

(** ** The claims about [Groups.prepare_run] *)

Lemma get_grouping_tags_Some (C_METADATA : string) (self : Groups.Groups)
    (key_list : list string) :
  Groups.get_grouping_tags C_METADATA self = Some key_list ↔
  Groups.wants_groups self = true ∧ key_list = tags C_METADATA self.
Proof.
  unfold Groups.get_grouping_tags, tags.
  destruct (Groups.wants_groups self); simpl; split.
  - by intros [= <-].
  - by intros [_ ->].
  - done.
  - by intros [? _].
Qed.

(** When some key is not a feature name there are no arrays. *)
Lemma partition_None (C_METADATA : string) (self : Groups.Groups)
    (workspace : Groups.Workspace) (key_list : list string) :
  Groups.get_grouping_tags C_METADATA self = Some key_list →
  ¬ key_list ⊆ cpmeas.feature_names (Groups.measurements workspace) →
  Groups.partition C_METADATA self workspace = Returned None.
Proof.
  intros [Hw ->]%get_grouping_tags_Some Hsub. unfold Groups.partition.
  destruct (decide (Forall
    (λ key, key ∈ cpmeas.feature_names (Groups.measurements workspace))
    (tags C_METADATA self))) as [Hall|Hex].
  - destruct Hsub. intros key Hk. by eapply Forall_forall in Hall.
  - apply not_Forall_Exists in Hex; [|apply _].
    apply Exists_exists in Hex as (key & Hk & Hn).
    by rewrite (get_groupings_None _ _ _ key).
Qed.

(** C1: for image sets that are not empty and any grouping keys, the
    ordering that [prepare_run] computes, in which the group numbers and
    then the group indexes ascend, is a permutation of the image numbers of
    the measurements: none is lost, repeated or made up. The ordering is
    computed whenever the keys are feature names. *)
Theorem C1_ordering_is_a_permutation (C_METADATA : string) (self : Groups.Groups)
    (workspace : Groups.Workspace) (key_list : list string) :
  let m := Groups.measurements workspace in
  Groups.get_grouping_tags C_METADATA self = Some key_list →
  cpmeas.image_sets m ≠ [] →
  (key_list ⊆ cpmeas.feature_names m →
   ∃ p, Groups.partition C_METADATA self workspace = Returned (Some p)) ∧
  (∀ p, Groups.partition C_METADATA self workspace = Returned (Some p) →
     Groups.ordering p ≡ₚ cpmeas.get_image_numbers m ∧
     length (Groups.group_numbers p) = length (Groups.ordering p) ∧
     length (Groups.group_indexes p) = length (Groups.ordering p) ∧
     StronglySorted (holds Py.le)
       (zip (Groups.group_numbers p) (Groups.group_indexes p))).
Proof.
  intros m Htags Hne.
  destruct (decide (Forall (λ key, key ∈ cpmeas.feature_names m) key_list))
    as [Hall|Hex].
  - assert (key_list ⊆ cpmeas.feature_names m) as Hsub.
    { intros key Hk. by eapply Forall_forall in Hall. }
    apply get_grouping_tags_Some in Htags as [Hw ->].
    destruct (partition_Returned C_METADATA self workspace Hw Hsub Hne)
      as (top & nin & _ & _ & Hp).
    split; [eauto|]. intros p. rewrite Hp. intros [= <-]. simpl.
    split_and!.
    + unfold cpmeas.get_image_numbers. by rewrite canonical_Permutation.
    + by rewrite <-concat_blocks, <-(rows_image_numbers 1), !length_fmap.
    + by rewrite <-concat_blocks, <-(rows_image_numbers 1), !length_fmap.
    + pose proof (rows_sorted 1 (blocks (tags C_METADATA self) (cpmeas.image_sets m)))
        as Hs.
      rewrite <-(zip_fst_snd (rows _ _).*2) in Hs.
      by rewrite <-!list_fmap_compose in Hs.
  - assert (¬ key_list ⊆ cpmeas.feature_names m) as Hsub.
    { intros Hsub. apply Hex, Forall_forall. intros key Hk. by apply Hsub. }
    split; [done|]. intros p.
    by rewrite (partition_None _ _ _ _ Htags Hsub).
Qed.

Lemma C1_ordering_is_a_permutation_witness :
  ∃ p, Groups.partition "Metadata" example_groups example_workspace = Returned (Some p) ∧
       Groups.ordering p ≡ₚ [1; 2; 3].
Proof.
  destruct (C1_ordering_is_a_permutation "Metadata" example_groups example_workspace
              ["Metadata_row"] eq_refl ltac:(done)) as [Hex Hperm].
  destruct Hex as [p Hp]; [set_solver|].
  exists p. split; [done|]. by apply Hperm.
Defined.

(** C2: the group numbers follow the distinct keys in lexicographic order.
    With [ks] the distinct key tuples of the image sets, sorted, an image
    set whose key is at position [i] of [ks] gets the group number [i + 1];
    so the numbers used are exactly 1, ..., [length ks], and two image sets
    get the same number exactly when their keys are equal. *)
Theorem C2_group_numbers_follow_sorted_keys (C_METADATA : string)
    (self : Groups.Groups) (workspace : Groups.Workspace) (key_list : list string) :
  let m := Groups.measurements workspace in
  let key := cpmeas.group_key key_list in
  let ks := Py.sorted (remove_dups (key <$> cpmeas.image_sets m)) in
  Groups.get_grouping_tags C_METADATA self = Some key_list →
  key_list ⊆ cpmeas.feature_names m →
  cpmeas.image_sets m ≠ [] →
  StronglySorted precedes ks ∧
  (∀ k, k ∈ ks ↔ ∃ r, r ∈ cpmeas.image_sets m ∧ key r = k) ∧
  ∃ p arranged,
    Groups.partition C_METADATA self workspace = Returned (Some p) ∧
    arranged ≡ₚ cpmeas.image_sets m ∧
    Groups.ordering p = cpmeas.image_number <$> arranged ∧
    Forall2 (λ r g, ∃ i, ks !! i = Some (key r) ∧ g = i + 1)
      arranged (Groups.group_numbers p) ∧
    (∀ g, g ∈ Groups.group_numbers p ↔ 1 ≤ g ≤ length ks) ∧
    (∀ j1 j2 r1 r2 g1 g2,
       arranged !! j1 = Some r1 → arranged !! j2 = Some r2 →
       Groups.group_numbers p !! j1 = Some g1 →
       Groups.group_numbers p !! j2 = Some g2 →
       g1 = g2 ↔ key r1 = key r2).
Proof.
  intros m key ks Htags Hsub Hne.
  apply get_grouping_tags_Some in Htags as [Hw ->].
  subst key ks m.
  pose proof (sorted_keys_NoDup (tags C_METADATA self)
    (cpmeas.image_sets (Groups.measurements workspace))) as Hnd.
  pose proof (sorted_keys_sorted (tags C_METADATA self)
    (cpmeas.image_sets (Groups.measurements workspace))) as Hss.
  pose proof (elem_of_sorted_keys (tags C_METADATA self)
    (cpmeas.image_sets (Groups.measurements workspace))) as Hel.
  pose proof (rows_members (tags C_METADATA self)
    (cpmeas.image_sets (Groups.measurements workspace)) 1
    (sorted_keys (tags C_METADATA self)
       (cpmeas.image_sets (Groups.measurements workspace)))) as HF0.
  destruct (partition_Returned C_METADATA self workspace Hw Hsub Hne)
    as (top & nin & _ & _ & Hp).
  pose proof (canonical_Permutation (tags C_METADATA self)
    (cpmeas.image_sets (Groups.measurements workspace))) as Hperm.
  change (Py.sorted (remove_dups (cpmeas.group_key (tags C_METADATA self) <$>
            cpmeas.image_sets (Groups.measurements workspace))))
    with (sorted_keys (tags C_METADATA self)
            (cpmeas.image_sets (Groups.measurements workspace))).
  fold (canonical (tags C_METADATA self)
          (cpmeas.image_sets (Groups.measurements workspace)))
       (blocks (tags C_METADATA self)
          (cpmeas.image_sets (Groups.measurements workspace))) in HF0.
  remember (cpmeas.image_sets (Groups.measurements workspace)) as l eqn:Hl.
  remember (tags C_METADATA self) as features eqn:Hfeatures.
  remember (sorted_keys features l) as ks eqn:Hks.
  clear Hl Hfeatures Hks.
  split; [done|]. split; [done|].
  eexists _, (canonical features l).
  split; [exact Hp|]. simpl.
  assert (Forall2 (λ r g, ∃ i, ks !! i = Some (cpmeas.group_key features r) ∧ g = i + 1)
            (canonical features l)
            ((λ r, r.2.1) <$> rows 1 (blocks features l))) as HF.
  { apply Forall2_fmap_r. eapply Forall2_impl; [exact HF0|].
    intros r row (_ & i & Hi & Hn). exists i. split; [done|]. simpl. lia. }
  split_and!; [done..| |].
  - intros g. split.
    + intros (j & Hj)%list_elem_of_lookup.
      destruct (Forall2_lookup_r _ _ _ _ _ HF Hj) as (r & _ & i & Hi & ->).
      apply lookup_lt_Some in Hi. lia.
    + intros [Hg1 Hg2].
      destruct (lookup_lt_is_Some_2 ks (g - 1)) as [k Hk]; [lia|].
      assert (k ∈ ks) as Hin by by eapply list_elem_of_lookup_2.
      apply Hel in Hin as (r & Hr & Hkr).
      rewrite <-Hperm in Hr.
      apply list_elem_of_lookup in Hr as (j & Hj).
      destruct (Forall2_lookup_l _ _ _ _ _ HF Hj) as (g' & Hg' & i & Hi & ->).
      rewrite Hkr in Hi.
      assert (i = g - 1) as -> by by eapply NoDup_lookup.
      replace g with (g - 1 + 1) at 1 by lia. by eapply list_elem_of_lookup_2.
  - intros j1 j2 r1 r2 g1 g2 Hr1 Hr2 Hg1 Hg2.
    destruct (Forall2_lookup_l _ _ _ _ _ HF Hr1) as (g1' & Hg1' & i1 & Hi1 & ->).
    destruct (Forall2_lookup_l _ _ _ _ _ HF Hr2) as (g2' & Hg2' & i2 & Hi2 & ->).
    rewrite Hg1 in Hg1'. rewrite Hg2 in Hg2'.
    injection Hg1' as ->. injection Hg2' as ->. split.
    + intros ?. assert (i1 = i2) as -> by lia. congruence.
    + intros Heq. rewrite Heq in Hi1.
      by rewrite (NoDup_lookup _ _ _ _ Hnd Hi1 Hi2).
Qed.

Lemma C2_group_numbers_follow_sorted_keys_witness :
  ∃ p, Groups.partition "Metadata" example_groups example_workspace = Returned (Some p) ∧
       ∀ g, g ∈ Groups.group_numbers p ↔ 1 ≤ g ≤ 2.
Proof.
  destruct (C2_group_numbers_follow_sorted_keys "Metadata" example_groups
              example_workspace ["Metadata_row"] eq_refl)
    as (_ & _ & p & arranged & Hp & _ & _ & _ & Hdense & _).
  - intros key ->%list_elem_of_singleton. by left.
  - done.
  - exists p. split; [done|]. exact Hdense.
Defined.

(** C3: in the rows of the ordering, those of one group number are the
    image sets of that group in their arrival order, and their group
    indexes are 1, 2, ..., the size of the group, one each. For the three
    image sets 1, 2, 3 with the rows A, B, A grouped by row, the ordering is
    1, 3, 2, the group numbers are 1, 1, 2 and the group indexes 1, 2, 1. *)
Theorem C3_group_indexes_in_arrival_order :
  (∀ (C_METADATA : string) (self : Groups.Groups) (workspace : Groups.Workspace)
     (key_list : list string),
     let m := Groups.measurements workspace in
     let key := cpmeas.group_key key_list in
     Groups.get_grouping_tags C_METADATA self = Some key_list →
     key_list ⊆ cpmeas.feature_names m →
     cpmeas.image_sets m ≠ [] →
     ∃ p, Groups.partition C_METADATA self workspace = Returned (Some p) ∧
       ∀ i k, Py.sorted (remove_dups (key <$> cpmeas.image_sets m)) !! i = Some k →
         let group := filter (λ r, key r = k) (cpmeas.image_sets m) in
         filter (λ row, row.2.1 = i + 1)
           (zip (Groups.ordering p)
                (zip (Groups.group_numbers p) (Groups.group_indexes p))) =
         zip (cpmeas.image_number <$> group)
             ((λ j, (i + 1, j)) <$> seq 1 (length group))) ∧
  Groups.partition "Metadata" example_groups example_workspace =
    Returned (Some {| Groups.ordering := [1; 3; 2];
                      Groups.group_numbers := [1; 1; 2];
                      Groups.group_indexes := [1; 2; 1];
                      Groups.new_image_numbers := [0; 1; 3; 2] |}).
Proof.
  split; [|by vm_compute].
  intros C_METADATA self workspace key_list m key Htags Hsub Hne.
  apply get_grouping_tags_Some in Htags as [Hw ->]. subst key m.
  destruct (partition_Returned C_METADATA self workspace Hw Hsub Hne)
    as (top & nin & _ & _ & Hp).
  eexists. split; [exact Hp|]. simpl. intros i k Hi.
  rewrite <-concat_blocks, <-(rows_image_numbers 1), zip_rows.
  replace (i + 1) with (1 + i) by lia.
  fold (members (tags C_METADATA self)
          (cpmeas.image_sets (Groups.measurements workspace)) k).
  rewrite <-(length_fmap cpmeas.image_number). apply rows_filter.
  unfold blocks. rewrite list_lookup_fmap. unfold sorted_keys. by rewrite Hi.
Qed.

Lemma C3_group_indexes_in_arrival_order_witness :
  ∃ p, Groups.partition "Metadata" example_groups example_workspace = Returned (Some p) ∧
       filter (λ row, row.2.1 = 1)
         (zip (Groups.ordering p) (zip (Groups.group_numbers p) (Groups.group_indexes p)))
       = [(1, (1, 1)); (3, (1, 2))].
Proof.
  destruct (proj1 C3_group_indexes_in_arrival_order "Metadata" example_groups
              example_workspace ["Metadata_row"] eq_refl) as (p & Hp & Hrows).
  - intros key ->%list_elem_of_singleton. by left.
  - done.
  - exists p. split; [done|].
    exact (Hrows 0 [Some "A"] eq_refl).
Defined.

Lemma remove_dups_const {A B} `{EqDecision B} (c : B) (l : list A) :
  l ≠ [] → remove_dups ((λ _, c) <$> l) = [c].
Proof.
  induction l as [|x l IH]; [done|]. intros _. csimpl.
  destruct l as [|y l].
  - simpl. destruct (decide_rel elem_of c []) as [H|]; [|done].
    by apply elem_of_nil in H.
  - destruct (decide_rel elem_of c ((λ _, c) <$> y :: l)) as [|H]; [by apply IH|].
    destruct H. csimpl. by left.
Qed.

(** C8: without grouping keys there is one group, with the empty key and
    the number 1, that holds every image set; the group indexes are the
    positions 1, ..., N of the image sets and the ordering is the order in
    which they are. *)
Theorem C8_no_keys_single_group (C_METADATA : string) (self : Groups.Groups)
    (workspace : Groups.Workspace) :
  let m := Groups.measurements workspace in
  Groups.get_grouping_tags C_METADATA self = Some [] →
  cpmeas.image_sets m ≠ [] →
  Groups.get_groupings C_METADATA self workspace =
    Some ([], [([], cpmeas.get_image_numbers m)]) ∧
  ∃ nin,
    Groups.partition C_METADATA self workspace =
      Returned (Some
        {| Groups.ordering := cpmeas.get_image_numbers m;
           Groups.group_numbers := replicate (length (cpmeas.image_sets m)) 1;
           Groups.group_indexes := seq 1 (length (cpmeas.image_sets m));
           Groups.new_image_numbers := nin |}).
Proof.
  intros m Htags Hne. subst m.
  apply get_grouping_tags_Some in Htags as [Hw Ht].
  assert (cpmeas.get_groupings (Groups.measurements workspace) [] =
          [([], cpmeas.get_image_numbers (Groups.measurements workspace))]) as Hg.
  { unfold cpmeas.get_groupings, cpmeas.get_image_numbers.
    change (cpmeas.group_key []) with (λ _ : cpmeas.ImageSetRecord, @nil (option string)).
    rewrite remove_dups_const by done. csimpl. by rewrite filter_all. }
  assert (tags C_METADATA self ⊆ cpmeas.feature_names (Groups.measurements workspace))
    as Hsub.
  { rewrite <-Ht. intros key Hk. by apply elem_of_nil in Hk. }
  split.
  { rewrite (get_groupings_Some _ _ _ Hw Hsub), <-Ht. by rewrite Hg. }
  unfold Groups.partition. rewrite (get_groupings_Some _ _ _ Hw Hsub), <-Ht, Hg.
  destruct (arrays_Returned
    [([], cpmeas.get_image_numbers (Groups.measurements workspace))])
    as (top & nin & _ & _ & ->); [done| |].
  { simpl. rewrite app_nil_r. unfold cpmeas.get_image_numbers.
    by intros ?%fmap_nil_inv. }
  exists nin.
  change ((Py.sorted [([], cpmeas.get_image_numbers (Groups.measurements workspace))]).*2)
    with [cpmeas.get_image_numbers (Groups.measurements workspace)].
  rewrite rows_group_numbers, rows_group_indexes.
  unfold Numpy.ones_times, Numpy.arange_plus_1, cpmeas.get_image_numbers.
  simpl. by rewrite !app_nil_r, !length_fmap.
Qed.

Lemma C8_no_keys_single_group_witness :
  ∃ nin,
    Groups.partition "Metadata" example_groups_no_keys example_workspace =
      Returned (Some {| Groups.ordering := [1; 2; 3];
                        Groups.group_numbers := [1; 1; 1];
                        Groups.group_indexes := [1; 2; 3];
                        Groups.new_image_numbers := nin |}).
Proof.
  exact (proj2 (C8_no_keys_single_group "Metadata" example_groups_no_keys
                  example_workspace eq_refl ltac:(done))).
Defined.

(** C4, as the code has it: not in batch mode and with groups wanted, when
    a grouping key is not among the image feature names of the
    measurements, [get_groupings] answers [None] and [prepare_run] returns
    [False]; no exception is raised, no group number is computed and no
    call changes the measurements. *)
Theorem C4_missing_key_returns_False (C_METADATA : string) (self : Groups.Groups)
    (workspace : Groups.Workspace) (key_list : list string) (key : string) :
  Groups.in_batch_mode workspace = false →
  Groups.get_grouping_tags C_METADATA self = Some key_list →
  key ∈ key_list →
  key ∉ cpmeas.feature_names (Groups.measurements workspace) →
  Groups.get_groupings C_METADATA self workspace = None ∧
  Groups.partition C_METADATA self workspace = Returned None ∧
  Groups.prepare_run C_METADATA self workspace = ([], Returned false).
Proof.
  intros Hb Htags Hk Hn.
  pose proof Htags as [Hw ->]%get_grouping_tags_Some.
  assert (Groups.get_groupings C_METADATA self workspace = None) as Hg
    by by eapply get_groupings_None.
  split; [done|]. unfold Groups.prepare_run, Groups.partition.
  by rewrite Hb, Hw, Hg.
Qed.

Lemma C4_missing_key_returns_False_witness :
  Groups.prepare_run "Metadata" example_groups_by_plate example_workspace =
    ([], Returned false).
Proof.
  refine (proj2 (proj2 (C4_missing_key_returns_False "Metadata" example_groups_by_plate
    example_workspace ["Metadata_plate"] "Metadata_plate" eq_refl eq_refl _ _))).
  - by left.
  - by intros [=]%list_elem_of_singleton.
Defined.

(** C4, as it is claimed, fails: no image set of the example has metadata
    for the plate, and [prepare_run] returns [False] where a
    [ConfigurationError] is claimed. *)
Lemma C4_counterexample :
  (∀ r, r ∈ cpmeas.image_sets (Groups.measurements example_workspace) →
        cpmeas.metadata r !! "Metadata_plate" = None) ∧
  Groups.get_grouping_tags "Metadata" example_groups_by_plate = Some ["Metadata_plate"] ∧
  Groups.prepare_run "Metadata" example_groups_by_plate example_workspace =
    ([], Returned false) ∧
  ¬ ∃ calls, Groups.prepare_run "Metadata" example_groups_by_plate example_workspace =
             (calls, Raised "ConfigurationError").
Proof.
  split_and!.
  - intros r Hr. simpl in Hr.
    repeat (apply elem_of_cons in Hr as [->|Hr]; [by vm_compute|]).
    by apply elem_of_nil in Hr.
  - done.
  - by vm_compute.
  - intros [calls H]. vm_compute in H. discriminate H.
Qed.

(** C5, as the code has it: without image sets, with grouping wanted and
    the keys among the feature names, [prepare_run] gives no result:
    [np.hstack] refuses the empty list of groups with a [ValueError], before
    any call changes the measurements. *)
Theorem C5_no_image_sets_ValueError (C_METADATA : string) (self : Groups.Groups)
    (workspace : Groups.Workspace) (key_list : list string) :
  Groups.in_batch_mode workspace = false →
  Groups.get_grouping_tags C_METADATA self = Some key_list →
  key_list ⊆ cpmeas.feature_names (Groups.measurements workspace) →
  cpmeas.image_sets (Groups.measurements workspace) = [] →
  Groups.get_groupings C_METADATA self workspace = Some (key_list, []) ∧
  Groups.prepare_run C_METADATA self workspace = ([], Raised "ValueError").
Proof.
  intros Hb [Hw ->]%get_grouping_tags_Some Hsub Hnil.
  assert (Groups.get_groupings C_METADATA self workspace =
          Some (tags C_METADATA self, [])) as Hg.
  { rewrite get_groupings_Some by done. unfold cpmeas.get_groupings.
    by rewrite Hnil. }
  split; [done|]. unfold Groups.prepare_run, Groups.partition.
  by rewrite Hb, Hw, Hg.
Qed.

Lemma C5_no_image_sets_ValueError_witness :
  Groups.prepare_run "Metadata" example_groups example_empty_workspace =
    ([], Raised "ValueError").
Proof.
  refine (proj2 (C5_no_image_sets_ValueError "Metadata" example_groups
    example_empty_workspace ["Metadata_row"] eq_refl eq_refl _ eq_refl)).
  intros key ->%list_elem_of_singleton. by left.
Defined.

(** C5, as it is claimed, fails: without image sets the exception is a
    [ValueError], not an [EmptyInputError]. *)
Lemma C5_counterexample :
  cpmeas.image_sets (Groups.measurements example_empty_workspace) = [] ∧
  Groups.prepare_run "Metadata" example_groups example_empty_workspace =
    ([], Raised "ValueError") ∧
  ¬ ∃ calls, Groups.prepare_run "Metadata" example_groups example_empty_workspace =
             (calls, Raised "EmptyInputError").
Proof.
  split_and!; [done|by vm_compute|].
  intros [calls H]. vm_compute in H. discriminate H.
Qed.

(** The renumbering table sends the image number at position [j] of the
    ordering to [j + 1]. *)
Lemma put_arange_lookup (index a nin : list nat) :
  NoDup index →
  Numpy.put a index (Numpy.arange_plus_1 (length index)) = Returned nin →
  ∀ j id, index !! j = Some id → nin !! id = Some (j + 1).
Proof.
  intros Hnd Hput j id Hj.
  destruct (put_lookup index (Numpy.arange_plus_1 (length index)) a nin Hnd)
    as [H1 _]; [by unfold Numpy.arange_plus_1; rewrite length_seq|done|].
  rewrite (H1 _ _ Hj). unfold Numpy.arange_plus_1.
  rewrite lookup_seq_lt by by eapply lookup_lt_Some. f_equal. lia.
Qed.

(** C6, as the code has it: [prepare_run] returns only [True] or [False];
    when it has computed its arrays it makes the changes itself, calling
    [reorder_image_measurements] with the renumbering table, which sends
    the image number at each position of the ordering to that position,
    then [add_all_measurements] for the group numbers and for the group
    indexes, then [set_grouping_tags]. When it does not return [True] it
    makes no call. *)
Theorem C6_prepare_run_changes_the_measurements :
  (∀ (C_METADATA : string) (self : Groups.Groups) (workspace : Groups.Workspace)
     (key_list : list string),
     let m := Groups.measurements workspace in
     Groups.in_batch_mode workspace = false →
     Groups.get_grouping_tags C_METADATA self = Some key_list →
     key_list ⊆ cpmeas.feature_names m →
     cpmeas.image_sets m ≠ [] →
     ∃ p, Groups.partition C_METADATA self workspace = Returned (Some p) ∧
       Groups.prepare_run C_METADATA self workspace =
         ([cpmeas.ReorderImageMeasurements (Groups.new_image_numbers p);
           cpmeas.AddAllMeasurements cpmeas.GROUP_NUMBER (Groups.group_numbers p);
           cpmeas.AddAllMeasurements cpmeas.GROUP_INDEX (Groups.group_indexes p);
           cpmeas.SetGroupingTags (Some key_list)],
          Returned true) ∧
       (NoDup (cpmeas.get_image_numbers m) →
        ∀ j id, Groups.ordering p !! j = Some id →
                Groups.new_image_numbers p !! id = Some (j + 1))) ∧
  (∀ (C_METADATA : string) (self : Groups.Groups) (workspace : Groups.Workspace)
     (calls : list cpmeas.call) (r : Py.result bool),
     Groups.prepare_run C_METADATA self workspace = (calls, r) →
     r ≠ Returned true → calls = []).
Proof.
  split.
  - intros C_METADATA self workspace key_list m Hb Htags Hsub Hne.
    pose proof Htags as [Hw ->]%get_grouping_tags_Some.
    destruct (partition_Returned C_METADATA self workspace Hw Hsub Hne)
      as (top & nin & _ & Hput & Hp).
    eexists. split; [exact Hp|]. split.
    + unfold Groups.prepare_run. by rewrite Hb, Hw, Hp, Htags.
    + simpl. intros Hnd.
      assert (length (cpmeas.image_sets (Groups.measurements workspace)) =
              length (cpmeas.image_number <$> canonical (tags C_METADATA self)
                (cpmeas.image_sets (Groups.measurements workspace)))) as Hlen.
      { by rewrite length_fmap, canonical_Permutation. }
      rewrite Hlen in Hput. eapply put_arange_lookup; [|exact Hput].
      rewrite canonical_Permutation. exact Hnd.
  - intros C_METADATA self workspace calls r. unfold Groups.prepare_run.
    destruct (Groups.in_batch_mode workspace); [by intros [= <- <-]|].
    destruct (Groups.wants_groups self); simpl; [|by intros [= <- <-]].
    destruct (Groups.partition C_METADATA self workspace) as [[p|]|exc];
      by intros [= <- <-].
Qed.

Lemma C6_prepare_run_changes_the_measurements_witness :
  ∃ p, Groups.prepare_run "Metadata" example_groups example_workspace =
         ([cpmeas.ReorderImageMeasurements (Groups.new_image_numbers p);
           cpmeas.AddAllMeasurements cpmeas.GROUP_NUMBER (Groups.group_numbers p);
           cpmeas.AddAllMeasurements cpmeas.GROUP_INDEX (Groups.group_indexes p);
           cpmeas.SetGroupingTags (Some ["Metadata_row"])],
          Returned true).
Proof.
  destruct (proj1 C6_prepare_run_changes_the_measurements "Metadata" example_groups
              example_workspace ["Metadata_row"] eq_refl eq_refl)
    as (p & _ & Hrun & _).
  - intros key ->%list_elem_of_singleton. by left.
  - done.
  - by exists p.
Defined.

(** C6, as it is claimed, fails: on the example [prepare_run] itself
    reorders the measurements and stores the group numbers and indexes. *)
Lemma C6_counterexample :
  Groups.prepare_run "Metadata" example_groups example_workspace =
    ([cpmeas.ReorderImageMeasurements [0; 1; 3; 2];
      cpmeas.AddAllMeasurements cpmeas.GROUP_NUMBER [1; 1; 2];
      cpmeas.AddAllMeasurements cpmeas.GROUP_INDEX [1; 2; 1];
      cpmeas.SetGroupingTags (Some ["Metadata_row"])],
     Returned true) ∧
  (Groups.prepare_run "Metadata" example_groups example_workspace).1 ≠ [].
Proof. split; [by vm_compute|]. by vm_compute. Qed.

(** ** The claims about [RescaleIntensity] *)

Section rescale.
Import RescaleIntensity.

Lemma amax_Returned (a : list float) : a ≠ [] → ∃ v, Numpy.amax a = Returned v.
Proof. destruct a; [done|]. intros _. by eexists. Qed.

Lemma amin_Returned (a : list float) : a ≠ [] → ∃ v, Numpy.amin a = Returned v.
Proof. destruct a; [done|]. intros _. by eexists. Qed.

Lemma amax_Raised (a : list float) (exc : string) :
  Numpy.amax a = Raised exc → exc = "ValueError".
Proof. destruct a; [by intros [= <-]|done]. Qed.

Lemma prepare_group_loop_Returned (self : RescaleIntensity) (images : list Image)
    (min_value max_value : option float) :
  Forall has_pixels images →
  prepare_group_loop self (min_value, max_value) images =
  Returned
    (if bool_decide (wants_automatic_low self = LOW_ALL_IMAGES)
     then foldl (accumulate Py.min) min_value (unmasked Numpy.amin images)
     else min_value,
     if bool_decide (wants_automatic_high self = HIGH_ALL_IMAGES)
     then foldl (accumulate Py.max) max_value (unmasked Numpy.amax images)
     else max_value).
Proof.
  intros Hall. revert min_value max_value.
  induction Hall as [|image images Hpx _ IH]; intros min_value max_value.
  - simpl. by repeat case_bool_decide.
  - simpl. unfold prepare_group_step, has_pixels in *.
    destruct (has_mask image) eqn:Hm.
    + destruct (amax_Returned _ Hpx) as [vmax ->].
      destruct (amin_Returned _ Hpx) as [vmin ->].
      repeat case_bool_decide; step_bind; by rewrite IH.
    + destruct (amax_Returned _ Hpx) as [vmax Hmax].
      destruct (amin_Returned _ Hpx) as [vmin Hmin].
      rewrite Hmax, Hmin.
      repeat case_bool_decide; step_bind; by rewrite IH.
Qed.

End rescale.




(** C10: [divide] raises [ZeroDivisionError] exactly when the divisor
    equals zero, and otherwise returns every pixel divided by the divisor;
    [scale_by_image_maximum] never raises [ZeroDivisionError], and returns
    the pixels as they are when the maximum of the image under its mask is
    zero. *)
Theorem C10_divide_raises_only_on_zero :
  (∀ (data : list float) (value : float),
     (RescaleIntensity.divide data value = Raised "ZeroDivisionError" ↔
      PrimFloat.eqb value 0 = true) ∧
     (PrimFloat.eqb value 0 = false →
      RescaleIntensity.divide data value =
        Returned ((λ x, PrimFloat.div x value) <$> data))) ∧
  (∀ reference_image input_image : RescaleIntensity.Image,
     RescaleIntensity.scale_by_image_maximum reference_image input_image ≠
       Raised "ZeroDivisionError" ∧
     (∀ image_max,
        Numpy.amax (Numpy.select (RescaleIntensity.pixel_data input_image)
                      (RescaleIntensity.mask input_image)) = Returned image_max →
        PrimFloat.eqb image_max 0 = true →
        RescaleIntensity.scale_by_image_maximum reference_image input_image =
          Returned (RescaleIntensity.pixel_data input_image))).
Proof.
  split.
  - intros data value. unfold RescaleIntensity.divide.
    destruct (PrimFloat.eqb value 0); split; done.
  - intros reference_image input_image.
    unfold RescaleIntensity.scale_by_image_maximum, RescaleIntensity.divide.
    split.
    + destruct (Numpy.amax (Numpy.select (RescaleIntensity.pixel_data input_image)
                  (RescaleIntensity.mask input_image))) as [image_max|exc] eqn:E1;
        step_bind.
      2:{ apply amax_Raised in E1 as ->. by intros [=]. }
      destruct (PrimFloat.eqb image_max 0) eqn:E0; [done|].
      destruct (Numpy.amax (Numpy.select (RescaleIntensity.pixel_data reference_image)
                  (RescaleIntensity.mask reference_image))) as [reference_max|exc] eqn:E2;
        step_bind.
      * done.
      * apply amax_Raised in E2 as ->. by intros [=].
    + intros image_max -> E0. step_bind. by rewrite E0.
Qed.

Lemma C10_divide_raises_only_on_zero_witness :
  RescaleIntensity.divide [1; 3]%float 2%float = Returned [0.5; 1.5]%float.
Proof.
  rewrite (proj2 (proj1 C10_divide_raises_only_on_zero [1; 3]%float 2%float) eq_refl).
  reflexivity.
Defined.

(** ** Running [prepare_run] on reordered measurements *)

Lemma foldl_max_elem (a : list nat) (x : nat) : foldl Nat.max x a ∈ x :: a.
Proof.
  revert x. induction a as [|y a IH]; intros x; simpl; [by left|].
  pose proof (IH (x `max` y)) as H. apply elem_of_cons in H as [Heq|Hin].
  - rewrite Heq. destruct (Nat.max_spec x y) as [[_ ->]|[_ ->]].
    + right. by left.
    + by left.
  - by do 2 right.
Qed.

Lemma max_seq (n : nat) : n ≠ 0 → Numpy.max (seq 1 n) = Returned n.
Proof.
  intros Hn. destruct (max_Returned (seq 1 n)) as (top & Hmax & Hle).
  { by destruct n. }
  rewrite Hmax. f_equal. apply Nat.le_antisymm.
  - assert (top ∈ seq 1 n) as Hin.
    { destruct n as [|n]; [done|]. simpl in Hmax. injection Hmax as <-.
      apply (foldl_max_elem (seq 2 n) 1). }
    apply elem_of_seq in Hin. lia.
  - assert (n ∈ seq 1 n) as Hin by (apply elem_of_seq; lia).
    by eapply Forall_forall in Hle.
Qed.

(** Renumbering the image numbers 1, ..., n in their order changes none. *)
Lemma put_seq_identity (n : nat) (nin : list nat) :
  Numpy.put (Numpy.zeros (n + 1)) (seq 1 n) (Numpy.arange_plus_1 (length (seq 1 n)))
    = Returned nin →
  nin = seq 0 (S n).
Proof.
  intros Hput.
  destruct (put_Returned (seq 1 n) (Numpy.arange_plus_1 (length (seq 1 n)))
              (Numpy.zeros (n + 1))) as (nin' & Hput' & Hlen).
  { unfold Numpy.zeros. rewrite length_replicate. apply Forall_forall.
    intros i Hi%elem_of_seq. lia. }
  rewrite Hput in Hput'. injection Hput' as <-.
  unfold Numpy.zeros in Hlen. rewrite length_replicate in Hlen.
  destruct (put_lookup (seq 1 n) (Numpy.arange_plus_1 (length (seq 1 n)))
              (Numpy.zeros (n + 1)) nin) as [H1 H2];
    [apply NoDup_seq|by unfold Numpy.arange_plus_1; rewrite length_seq|done|].
  apply list_eq. intros i.
  destruct (decide (i = 0)) as [->|Hi0].
  - rewrite H2 by (intros Hin%elem_of_seq; lia).
    unfold Numpy.zeros. rewrite lookup_replicate_2 by lia. done.
  - destruct (decide (i ≤ n)) as [Hin|Hout].
    + rewrite (H1 (i - 1) i) by (apply lookup_seq; lia).
      unfold Numpy.arange_plus_1. rewrite length_seq.
      rewrite !lookup_seq_lt by lia. f_equal. lia.
    + rewrite lookup_ge_None_2 by lia. by rewrite lookup_seq_ge by lia.
Qed.

Lemma omap_seq_imap {A B} (F : nat → option B) (g : nat → A → B) (c : list A) (s : nat) :
  (∀ j r, c !! j = Some r → F (s + j) = Some (g j r)) →
  omap F (seq s (length c)) = imap g c.
Proof.
  revert s g. induction c as [|r c IH]; intros s g HF; [done|].
  simpl. rewrite <-(Nat.add_0_r s) at 1. rewrite (HF 0 r) by done.
  f_equal. apply IH. intros j r' Hj.
  replace (S s + j) with (s + S j) by lia. by apply HF.
Qed.

Lemma Sorted_fmap_inv {A B} (f : A → B) (R : relation B) (l : list A) :
  Sorted R (f <$> l) → Sorted (λ x y, R (f x) (f y)) l.
Proof.
  induction l as [|x l IH]; [constructor|]. csimpl.
  intros [Hl Hhd]%Sorted_inv. constructor; [by apply IH|].
  destruct l as [|y l]; constructor. by apply HdRel_inv in Hhd.
Qed.

Section renumbered.
Variable features : list string.

Lemma renumbered_keys (c : list cpmeas.ImageSetRecord) :
  cpmeas.group_key features <$> renumbered c = cpmeas.group_key features <$> c.
Proof.
  apply list_eq. intros j. unfold renumbered.
  rewrite !list_lookup_fmap, list_lookup_imap. by destruct (c !! j).
Qed.

Lemma renumbered_image_numbers (c : list cpmeas.ImageSetRecord) :
  cpmeas.image_number <$> renumbered c = seq 1 (length c).
Proof.
  apply list_eq. intros j. unfold renumbered.
  rewrite list_lookup_fmap, list_lookup_imap.
  destruct (c !! j) as [r|] eqn:E; simpl.
  - by rewrite lookup_seq_lt by by eapply lookup_lt_Some.
  - by rewrite lookup_seq_ge by by apply lookup_ge_None.
Qed.

Lemma renumbered_length (c : list cpmeas.ImageSetRecord) :
  length (renumbered c) = length c.
Proof. unfold renumbered. apply length_imap. Qed.

(** Image sets that are in canonical order stay as they are. *)
Lemma canonical_renumbered (l : list cpmeas.ImageSetRecord) :
  canonical features (renumbered (canonical features l)) =
  renumbered (canonical features l).
Proof.
  rewrite (canonical_stable_sort features (renumbered _)).
  apply stable_sort_id. unfold holds, key_le.
  apply (Sorted_fmap_inv (cpmeas.group_key features) (holds Py.le)).
  rewrite renumbered_keys, canonical_stable_sort.
  apply (Sorted_fmap _ (holds (key_le features))); [done|].
  apply stable_sort_Sorted. intros x y. apply le_total.
Qed.

(** The reordered measurements hold the image sets in canonical order,
    numbered 1, 2, ... *)
Lemma reorder_image_sets (m : cpmeas.Measurements) (nin : list nat) :
  NoDup (cpmeas.get_image_numbers m) →
  (∀ j id, (cpmeas.image_number <$> canonical features (cpmeas.image_sets m)) !! j
             = Some id → nin !! id = Some (j + 1)) →
  cpmeas.image_sets (cpmeas.reorder_image_measurements nin m) =
  renumbered (canonical features (cpmeas.image_sets m)).
Proof.
  intros Hnd Hnin. unfold cpmeas.reorder_image_measurements, renumbered. simpl.
  rewrite <-(Permutation_length (canonical_Permutation features (cpmeas.image_sets m))).
  apply omap_seq_imap. intros j r Hj.
  assert (nin !! cpmeas.image_number r = Some (j + 1)) as Hr.
  { apply Hnin. by rewrite list_lookup_fmap, Hj. }
  destruct (find _ _) as [r'|] eqn:E; simpl.
  - apply find_some in E as [Hin Hr'].
    apply bool_decide_eq_true in Hr'.
    apply list_elem_of_In in Hin.
    rewrite <-(canonical_Permutation features) in Hin.
    apply list_elem_of_lookup in Hin as (j' & Hj').
    assert (nin !! cpmeas.image_number r' = Some (j' + 1)) as Hr''.
    { apply Hnin. by rewrite list_lookup_fmap, Hj'. }
    assert (j' = j) as -> by (rewrite Hr' in Hr''; injection Hr'' as ?; lia).
    by simplify_eq.
  - exfalso. eapply find_none in E.
    + apply bool_decide_eq_false in E. apply E.
      rewrite Hr. f_equal. lia.
    + apply list_elem_of_In. rewrite <-(canonical_Permutation features).
      by eapply list_elem_of_lookup_2.
Qed.
End renumbered.

(** C7: after a first run on image sets with distinct image numbers, the
    measurements reordered by its renumbering table hold the image sets in
    the order of the first ordering, numbered 1, ..., N. On them a second
    run with the same keys computes the identity: its ordering is the image
    numbers 1, ..., N in the order in which they are, and its renumbering
    table sends every image number to itself. *)
Theorem C7_second_run_is_the_identity (C_METADATA : string) (self : Groups.Groups)
    (workspace : Groups.Workspace) (key_list : list string) :
  let m := Groups.measurements workspace in
  Groups.get_grouping_tags C_METADATA self = Some key_list →
  key_list ⊆ cpmeas.feature_names m →
  cpmeas.image_sets m ≠ [] →
  NoDup (cpmeas.get_image_numbers m) →
  ∃ p, Groups.partition C_METADATA self workspace = Returned (Some p) ∧
    let m' := cpmeas.reorder_image_measurements (Groups.new_image_numbers p) m in
    let workspace' :=
      {| Groups.in_batch_mode := Groups.in_batch_mode workspace;
         Groups.measurements := m' |} in
    Forall2 (λ r' id, ∃ r, r ∈ cpmeas.image_sets m ∧ cpmeas.image_number r = id ∧
                           cpmeas.metadata r' = cpmeas.metadata r)
      (cpmeas.image_sets m') (Groups.ordering p) ∧
    ∃ p', Groups.partition C_METADATA self workspace' = Returned (Some p') ∧
      Groups.ordering p' = cpmeas.get_image_numbers m' ∧
      Groups.ordering p' = seq 1 (length (cpmeas.image_sets m)) ∧
      Groups.new_image_numbers p' = seq 0 (S (length (cpmeas.image_sets m))).
Proof.
  intros m Htags Hsub Hne Hnd. subst m.
  apply get_grouping_tags_Some in Htags as [Hw ->].
  destruct (partition_Returned C_METADATA self workspace Hw Hsub Hne)
    as (top & nin & _ & Hput & Hp).
  eexists. split; [exact Hp|].
  cbv zeta. cbn [Groups.new_image_numbers Groups.ordering].
  pose proof (canonical_Permutation (tags C_METADATA self)
    (cpmeas.image_sets (Groups.measurements workspace))) as Hperm.
  pose proof (Permutation_length Hperm) as Hlen.
  assert (∀ j id,
    (cpmeas.image_number <$> canonical (tags C_METADATA self)
       (cpmeas.image_sets (Groups.measurements workspace))) !! j = Some id →
    nin !! id = Some (j + 1)) as Hnin.
  { eapply put_arange_lookup; [by rewrite Hperm|].
    by rewrite length_fmap, Hlen. }
  pose proof (reorder_image_sets (tags C_METADATA self) (Groups.measurements workspace)
    nin Hnd Hnin) as Hsets.
  remember (cpmeas.reorder_image_measurements nin (Groups.measurements workspace))
    as m' eqn:Hm'.
  assert (cpmeas.feature_names m' = cpmeas.feature_names (Groups.measurements workspace))
    as Hnames by by rewrite Hm'.
  clear Hm'.
  remember (cpmeas.image_sets (Groups.measurements workspace)) as l eqn:Hl.
  remember (tags C_METADATA self) as features eqn:Hfeatures.
  split.
  { rewrite Hsets. apply Forall2_fmap_r, Forall2_same_length_lookup_2.
    - by rewrite renumbered_length.
    - intros j r' r Hr' Hr. unfold renumbered in Hr'.
      rewrite list_lookup_imap, Hr in Hr'. injection Hr' as <-.
      exists r. split_and!; [|done..].
      rewrite <-Hperm. by eapply list_elem_of_lookup_2. }
  destruct (partition_Returned C_METADATA self
              {| Groups.in_batch_mode := Groups.in_batch_mode workspace;
                 Groups.measurements := m' |} Hw)
    as (top' & nin' & Hmax' & Hput' & Hp').
  { cbn [Groups.measurements]. by rewrite Hnames, <-Hfeatures. }
  { cbn [Groups.measurements]. rewrite Hsets. intros Hnil.
    apply (f_equal length) in Hnil. rewrite renumbered_length, Hlen in Hnil.
    by destruct l. }
  cbn [Groups.measurements] in *. rewrite <-Hfeatures in *.
  rewrite Hsets, canonical_renumbered, renumbered_image_numbers, renumbered_length, Hlen
    in *.
  rewrite max_seq in Hmax' by by destruct l. injection Hmax' as <-.
  eexists. split; [exact Hp'|]. cbn [Groups.new_image_numbers Groups.ordering].
  split_and!.
  - unfold cpmeas.get_image_numbers.
    by rewrite Hsets, renumbered_image_numbers, Hlen.
  - done.
  - apply put_seq_identity. by rewrite length_seq.
Qed.

Lemma C7_second_run_is_the_identity_witness :
  ∃ p, Groups.partition "Metadata" example_groups example_workspace = Returned (Some p) ∧
    ∃ p', Groups.partition "Metadata" example_groups
            {| Groups.in_batch_mode := false;
               Groups.measurements :=
                 cpmeas.reorder_image_measurements (Groups.new_image_numbers p)
                   (Groups.measurements example_workspace) |} = Returned (Some p') ∧
          Groups.ordering p' = [1; 2; 3] ∧
          Groups.new_image_numbers p' = [0; 1; 2; 3].
Proof.
  destruct (C7_second_run_is_the_identity "Metadata" example_groups example_workspace
              ["Metadata_row"] eq_refl) as (p & Hp & _ & p' & Hp' & _ & Hord & Hnew).
  - intros key ->%list_elem_of_singleton. by left.
  - done.
  - by vm_compute; repeat constructor; rewrite ?elem_of_cons, ?elem_of_nil; lia.
  - exists p. split; [done|]. exists p'. by split_and!.
Defined.

(** * Further properties of [Groups] *)

Lemma concat_Permutation {A} (l1 l2 : list (list A)) :
  l1 ≡ₚ l2 → concat l1 ≡ₚ concat l2.
Proof.
  induction 1 as [|x l1 l2 _ IH|x y l|l1 l2 l3 _ IH1 _ IH2]; simpl.
  - done.
  - by rewrite IH.
  - rewrite !app_assoc. f_equiv. apply Permutation_app_comm.
  - by rewrite IH1.
Qed.

Lemma concat_sorted_nil (g : list (cpmeas.GroupKey * list nat)) :
  concat (Py.sorted g).*2 = [] ↔ concat g.*2 = [].
Proof.
  assert (concat (Py.sorted g).*2 ≡ₚ concat g.*2) as Hp.
  { apply concat_Permutation, fmap_Permutation, sorted_Permutation. }
  split; intros Hnil.
  - apply Permutation_nil_r. by rewrite <-Hp, Hnil.
  - apply Permutation_nil_r. by rewrite Hp, Hnil.
Qed.

(** Groupings without any image number stop [prepare_run]'s arrays at
    [np.hstack] or at [np.max]. *)
Lemma arrays_Raised (g : list (cpmeas.GroupKey * list nat)) :
  concat g.*2 = [] → Groups.arrays g = Raised "ValueError".
Proof.
  intros Hnil. destruct (decide (g = [])) as [->|Hg]; [done|].
  apply concat_sorted_nil in Hnil. unfold Groups.arrays.
  assert (Py.sorted g ≠ []) as Hgs.
  { intros Hs. apply Hg, Permutation_nil_r. by rewrite <-Hs, sorted_Permutation. }
  set (gs := Py.sorted g) in *.
  destruct (rows_lengths 1 gs.*2) as [Hl1 Hl2].
  rewrite Hnil in Hl1, Hl2. apply nil_length_inv in Hl1, Hl2.
  rewrite imap_fmap in Hl1. rewrite <-list_fmap_compose in Hl2.
  rewrite hstack_Returned by by destruct gs. step_bind.
  rewrite hstack_Returned by by destruct gs. step_bind.
  rewrite hstack_Returned by by destruct gs. step_bind.
  unfold compose in Hl1, Hl2. simpl in Hl1, Hl2.
  by rewrite Hl1, Hl2, Hnil.
Qed.

(** X1: [prepare_run]'s arrays are computed exactly when the groupings
    hold an image number; otherwise the exception is a [ValueError], and
    no other exception is ever raised there. *)
Theorem X1_arrays_raise_only_ValueError (g : list (cpmeas.GroupKey * list nat)) :
  (concat g.*2 = [] → Groups.arrays g = Raised "ValueError") ∧
  (concat g.*2 ≠ [] → ∃ p, Groups.arrays g = Returned p) ∧
  (∀ exc, Groups.arrays g = Raised exc → exc = "ValueError" ∧ concat g.*2 = []).
Proof.
  assert (concat g.*2 ≠ [] → ∃ p, Groups.arrays g = Returned p) as Hok.
  { intros Hne. destruct (arrays_Returned g) as (top & nin & _ & _ & ->).
    - by intros ->.
    - by rewrite concat_sorted_nil.
    - by eexists. }
  split_and!; [apply arrays_Raised|done|].
  intros exc Hexc. destruct (decide (concat g.*2 = [])) as [Hnil|Hne].
  - rewrite (arrays_Raised g Hnil) in Hexc. by injection Hexc as <-.
  - destruct (Hok Hne) as [p Hp]. congruence.
Qed.

Lemma X1_arrays_raise_only_ValueError_witness :
  Groups.arrays [([Some "A"], []); ([Some "B"], [])] = Raised "ValueError" ∧
  ∃ p, Groups.arrays [([Some "A"], [1; 3]); ([Some "B"], [2])] = Returned p.
Proof.
  split.
  - exact (proj1 (X1_arrays_raise_only_ValueError
                    [([Some "A"], []); ([Some "B"], [])]) eq_refl).
  - apply (proj1 (proj2 (X1_arrays_raise_only_ValueError
                    [([Some "A"], [1; 3]); ([Some "B"], [2])]))).
    done.
Defined.

(** X2: the arrays that [prepare_run] computes are the arrays as they are
    built from the sorted groupings: [np.lexsort] finds them in order, so
    the ordering is the image numbers of the sorted groups one after the
    other, the group numbers repeat [i + 1] for each image number of the
    group at position [i], and the group indexes count each group from 1. *)
Theorem X2_arrays_are_built_in_order (g : list (cpmeas.GroupKey * list nat))
    (p : Groups.Partition) :
  Groups.arrays g = Returned p →
  Groups.ordering p = concat (Py.sorted g).*2 ∧
  Groups.group_numbers p =
    concat (imap (λ i group, replicate (length group.2) (i + 1)) (Py.sorted g)) ∧
  Groups.group_indexes p =
    concat ((λ group, seq 1 (length group.2)) <$> Py.sorted g).
Proof.
  intros Hp.
  destruct (decide (concat g.*2 = [])) as [Hnil|Hne].
  { rewrite (arrays_Raised g Hnil) in Hp. done. }
  destruct (arrays_Returned g) as (top & nin & _ & _ & Hp').
  - by intros ->.
  - by rewrite concat_sorted_nil.
  - rewrite Hp' in Hp. injection Hp as <-. simpl.
    rewrite rows_group_numbers, rows_group_indexes, imap_fmap.
    by rewrite <-list_fmap_compose.
Qed.

Lemma X2_arrays_are_built_in_order_witness :
  ∃ p, Groups.arrays [([Some "B"], [2]); ([Some "A"], [1; 3])] = Returned p ∧
       Groups.ordering p = [1; 3; 2] ∧
       Groups.group_numbers p = [1; 1; 2] ∧
       Groups.group_indexes p = [1; 2; 1].
Proof.
  eexists. split; [reflexivity|].
  exact (X2_arrays_are_built_in_order [([Some "B"], [2]); ([Some "A"], [1; 3])] _ eq_refl).
Defined.

(** X3: for image numbers that are distinct, the table that [prepare_run]
    gives to [reorder_image_measurements] has one slot for each number up to
    the largest image number; the slot of the image number at position [j]
    of the ordering holds [j + 1], and the slot of a number that is no image
    number holds 0. *)
Theorem X3_new_image_numbers_invert_the_ordering
    (g : list (cpmeas.GroupKey * list nat)) (p : Groups.Partition) :
  Groups.arrays g = Returned p →
  NoDup (Groups.ordering p) →
  ∃ top, Numpy.max (Groups.ordering p) = Returned top ∧
    Forall (λ id, id ≤ top) (Groups.ordering p) ∧
    length (Groups.new_image_numbers p) = top + 1 ∧
    (∀ j id, Groups.ordering p !! j = Some id →
             Groups.new_image_numbers p !! id = Some (j + 1)) ∧
    (∀ k, k ≤ top → k ∉ Groups.ordering p →
          Groups.new_image_numbers p !! k = Some 0).
Proof.
  intros Hp Hnd.
  destruct (decide (concat g.*2 = [])) as [Hnil|Hne].
  { rewrite (arrays_Raised g Hnil) in Hp. done. }
  destruct (arrays_Returned g) as (top & nin & Hmax & Hput & Hp').
  - by intros ->.
  - by rewrite concat_sorted_nil.
  - rewrite Hp' in Hp. injection Hp as <-. simpl in *.
    exists top. split; [done|].
    assert (Forall (λ id, id ≤ top) (concat (Py.sorted g).*2)) as Hle.
    { destruct (max_Returned (concat (Py.sorted g).*2)) as (top' & Hmax' & Hle).
      - by rewrite concat_sorted_nil.
      - rewrite Hmax in Hmax'. by injection Hmax' as <-. }
    split; [done|].
    destruct (put_Returned (concat (Py.sorted g).*2)
                (Numpy.arange_plus_1 (length (concat (Py.sorted g).*2)))
                (Numpy.zeros (top + 1))) as (nin' & Hput' & Hlen).
    { unfold Numpy.zeros. rewrite length_replicate.
      eapply Forall_impl; [exact Hle|]. simpl. lia. }
    rewrite Hput in Hput'. injection Hput' as <-.
    unfold Numpy.zeros in Hlen. rewrite length_replicate in Hlen.
    split; [done|]. split.
    + by eapply put_arange_lookup.
    + intros k Hk Hnot.
      destruct (put_lookup _ _ _ _ Hnd
                  ltac:(by unfold Numpy.arange_plus_1; rewrite length_seq) Hput)
        as [_ H2].
      rewrite (H2 k Hnot). unfold Numpy.zeros. apply lookup_replicate_2. lia.
Qed.

Lemma X3_new_image_numbers_invert_the_ordering_witness :
  ∃ p, Groups.arrays [([Some "B"], [2]); ([Some "A"], [5; 3])] = Returned p ∧
       Groups.new_image_numbers p = [0; 0; 3; 2; 0; 1].
Proof.
  eexists. split; [reflexivity|].
  destruct (X3_new_image_numbers_invert_the_ordering
              [([Some "B"], [2]); ([Some "A"], [5; 3])] _ eq_refl)
    as (top & _ & _ & _ & _ & _); [|reflexivity].
  by vm_compute; repeat constructor; rewrite ?elem_of_cons, ?elem_of_nil; lia.
Defined.

(** X4: [prepare_run] returns [False] exactly when it is not in batch
    mode, groups are wanted and one of the grouping tags is not an image
    feature of the measurements; it has made no call then. *)
Theorem X4_prepare_run_returns_False_iff (C_METADATA : string) (self : Groups.Groups)
    (workspace : Groups.Workspace) (calls : list cpmeas.call) :
  Groups.prepare_run C_METADATA self workspace = (calls, Returned false) ↔
  calls = [] ∧
  Groups.in_batch_mode workspace = false ∧
  ∃ key_list key,
    Groups.get_grouping_tags C_METADATA self = Some key_list ∧
    key ∈ key_list ∧
    key ∉ cpmeas.feature_names (Groups.measurements workspace).
Proof.
  split.
  - unfold Groups.prepare_run.
    destruct (Groups.in_batch_mode workspace) eqn:Hb; [by intros [=]|].
    destruct (Groups.wants_groups self) eqn:Hw; simpl; [|by intros [=]].
    unfold Groups.partition.
    destruct (Groups.get_groupings C_METADATA self workspace) as [[kl gs]|] eqn:Hg.
    + unfold fmap, result_fmap, Py.bind.
      destruct (Groups.arrays gs); by intros [=].
    + intros [= <-]. split_and!; [done..|].
      unfold Groups.get_groupings, Groups.get_grouping_tags in *.
      rewrite Hw in *. simpl in *.
      destruct (existsb _ _) eqn:E; [|done].
      apply existsb_exists in E as (key & Hk%list_elem_of_In & Hn).
      apply bool_decide_eq_true in Hn. eauto.
  - intros (-> & Hb & key_list & key & Htags & Hk & Hn).
    apply get_grouping_tags_Some in Htags as [Hw ->].
    unfold Groups.prepare_run, Groups.partition.
    by rewrite Hb, Hw, (get_groupings_None _ _ _ key).
Qed.

Lemma X4_prepare_run_returns_False_iff_witness :
  Groups.prepare_run "Metadata" example_groups_by_plate example_workspace =
    ([], Returned false).
Proof.
  apply X4_prepare_run_returns_False_iff. split_and!; [done..|].
  exists ["Metadata_plate"], "Metadata_plate". split_and!; [done|by left|].
  by intros [=]%list_elem_of_singleton.
Defined.

(** ** Feature names and metadata keys *)

Lemma slice_from_app (a b : string) : Py.slice_from (String.length a) (a +:+ b) = b.
Proof. induction a as [|c a IH]; simpl; [by destruct b|done]. Qed.

Lemma slice_from_tag (C key : string) :
  Py.slice_from (String.length C + 1) (C +:+ "_" +:+ key) = key.
Proof.
  induction C as [|c C IH]; simpl; [done|]. exact IH.
Qed.

Lemma startswith_app (a b : string) : Py.startswith (a +:+ b) a = true.
Proof.
  unfold Py.startswith. induction a as [|c a IH]; simpl; [by destruct b|].
  destruct (Ascii.ascii_dec c c); [done|done].
Qed.

(** X5: the grouping tags of the module are decoded to its metadata
    choices again: each tag starts with [C_METADATA], and cutting the prefix
    and one more character off it, as [update_tables] does, gives the
    choice. *)
Theorem X5_grouping_tags_decode_to_the_choices (C_METADATA : string)
    (self : Groups.Groups) :
  Groups.update_tables_metadata_key_names C_METADATA self =
    Groups.grouping_metadata self ∧
  ∀ key_list, Groups.get_grouping_tags C_METADATA self = Some key_list →
    length key_list = length (Groups.grouping_metadata self) ∧
    Forall (λ tag, Py.startswith tag C_METADATA = true) key_list ∧
    Py.slice_from (String.length C_METADATA + 1) <$> key_list =
      Groups.grouping_metadata self.
Proof.
  assert (∀ l : list string,
    (λ x, Py.slice_from (String.length C_METADATA + 1) x) <$>
      ((λ key, C_METADATA +:+ "_" +:+ key) <$> l) = l) as Hdecode.
  { intros l. rewrite <-list_fmap_compose. rewrite <-(list_fmap_id l) at 2.
    apply list_fmap_ext. intros _ key _. apply slice_from_tag. }
  split; [apply Hdecode|].
  intros key_list [_ ->]%get_grouping_tags_Some. unfold tags.
  split_and!; [by rewrite length_fmap| |apply Hdecode].
  apply Forall_fmap, Forall_forall. intros key _. apply startswith_app.
Qed.

Lemma X5_grouping_tags_decode_to_the_choices_witness :
  Py.slice_from (String.length "Metadata" + 1) <$> ["Metadata_row"] = ["row"].
Proof.
  exact (proj2 (proj2 (proj2 (X5_grouping_tags_decode_to_the_choices "Metadata"
                                example_groups) ["Metadata_row"] eq_refl))).
Defined.



(** ** Loading the settings of [Groups] *)

Lemma result_bind_Returned {A B} (k : A → Py.result B) (a : A) :
  (Returned a ≫= k) = k a.
Proof. done. Qed.

Lemma result_bind_Raised {A B} (k : A → Py.result B) (exc : string) :
  (Raised exc ≫= k) = Raised exc.
Proof. done. Qed.

Section loading.
Variable int : string → Py.result Z.
Variable new_choice : string.

Lemma prepare_settings_delete_enough (rounds : nat) (groups : list string) (n : Z) :
  length groups < rounds →
  Groups.prepare_settings_delete rounds groups n =
    if bool_decide (n < 0)%Z then Raised "IndexError"
    else Returned (take (Z.to_nat n) groups).
Proof.
  revert groups. induction rounds as [|rounds IH]; intros groups Hlen; [lia|].
  simpl. destruct (decide (n < Z.of_nat (length groups))%Z) as [Hcheck|Hcheck].
  - rewrite (bool_decide_eq_true_2 _ Hcheck). destruct groups as [|x rest].
    + simpl in Hcheck. by rewrite bool_decide_eq_true_2 by lia.
    + rewrite removelast_firstn_len.
      change (firstn (Init.Nat.pred (length (x :: rest))) (x :: rest))
        with (take (length rest) (x :: rest)).
      rewrite IH by (rewrite length_take; simpl in *; lia).
      destruct (decide (n < 0)%Z) as [Hn|Hn].
      * by rewrite !(bool_decide_eq_true_2 _ Hn).
      * rewrite !(bool_decide_eq_false_2 _ Hn). f_equal.
        rewrite take_take. f_equal. simpl in Hcheck. lia.
  - rewrite (bool_decide_eq_false_2 _ Hcheck).
    rewrite bool_decide_eq_false_2 by lia. f_equal.
    symmetry. apply take_ge. lia.
Qed.

Lemma prepare_settings_add_enough (rounds : nat) (groups : list string) (n : Z) :
  Z.to_nat n - length groups ≤ rounds →
  Groups.prepare_settings_add new_choice rounds groups n =
    Returned (groups ++ replicate (Z.to_nat n - length groups) new_choice).
Proof.
  revert groups. induction rounds as [|rounds IH]; intros groups Hr; simpl.
  - rewrite bool_decide_eq_false_2 by lia.
    replace (Z.to_nat n - length groups) with 0 by lia. by rewrite app_nil_r.
  - case_bool_decide as Hcheck.
    + rewrite IH by (rewrite length_app; simpl; lia).
      rewrite length_app. simpl. rewrite <-app_assoc. do 2 f_equal.
      replace (Z.to_nat n - length groups) with (S (Z.to_nat n - (length groups + 1)))
        by lia.
      done.
    + replace (Z.to_nat n - length groups) with 0 by lia. by rewrite app_nil_r.
Qed.

(** X7: [prepare_settings] leaves the module with as many groups as the
    count among the setting values says: the first groups are kept, the
    others are dropped from the end or new ones are added at the end, and
    [settings] then lists the count and two more. A negative count empties
    the groups and ends in an [IndexError]. *)
Theorem X7_prepare_settings_sets_the_count (self : Groups.Groups)
    (setting_values : list string) (count : string) (n : Z) :
  setting_values !! 1 = Some count →
  int count = Returned n →
  ((n < 0)%Z →
   Groups.prepare_settings int new_choice self setting_values = Raised "IndexError") ∧
  ((0 ≤ n)%Z →
   ∃ self', Groups.prepare_settings int new_choice self setting_values = Returned self' ∧
     Groups.wants_groups self' = Groups.wants_groups self ∧
     Groups.grouping_metadata self' =
       take (Z.to_nat n) (Groups.grouping_metadata self) ++
       replicate (Z.to_nat n - length (Groups.grouping_metadata self)) new_choice ∧
     length (Groups.grouping_metadata self') = Z.to_nat n ∧
     length (Groups.settings self') = Z.to_nat n + 2).
Proof.
  intros Hcount Hint. unfold Groups.prepare_settings.
  assert (Py.getitem setting_values Groups.IDX_GROUPING_METADATA_COUNT = Returned count)
    as -> by (unfold Py.getitem, Groups.IDX_GROUPING_METADATA_COUNT; by rewrite Hcount).
  rewrite result_bind_Returned, Hint, result_bind_Returned.
  rewrite prepare_settings_delete_enough by lia.
  split; intros Hn.
  - by rewrite bool_decide_eq_true_2 by lia.
  - rewrite bool_decide_eq_false_2 by lia.
    rewrite result_bind_Returned, prepare_settings_add_enough by lia.
    rewrite result_bind_Returned.
    eexists. split; [done|]. cbn [Groups.wants_groups Groups.grouping_metadata].
    assert (length (take (Z.to_nat n) (Groups.grouping_metadata self) ++
              replicate (Z.to_nat n -
                length (take (Z.to_nat n) (Groups.grouping_metadata self))) new_choice)
            = Z.to_nat n) as Hlen.
    { rewrite length_app, length_replicate, length_take. lia. }
    split_and!; [done| |done|].
    + do 2 f_equal. rewrite length_take. lia.
    + unfold Groups.settings. cbn [Groups.grouping_metadata].
      rewrite length_app, length_fmap, length_seq, Hlen. simpl. lia.
Qed.

Lemma getitem_Returned {A} (l : list A) (i : nat) (x : A) :
  l !! i = Some x → Py.getitem l i = Returned x.
Proof. unfold Py.getitem. by intros ->. Qed.

Lemma getitem_Raised {A} (l : list A) (i : nat) :
  length l ≤ i → Py.getitem l i = Raised "IndexError".
Proof. intros Hi. unfold Py.getitem. by rewrite lookup_ge_None_2. Qed.

Lemma traverse_getitem_Returned (setting_values : list string) (f : nat → nat)
    (l : list nat) :
  Forall (λ i, f i < length setting_values) l →
  ∃ ys, Py.traverse (λ i, Py.getitem setting_values (f i)) l = Returned ys ∧
        Forall2 (λ i y, setting_values !! f i = Some y) l ys.
Proof.
  induction 1 as [|i l Hi _ (ys & IH & HF)].
  - exists []. by split.
  - destruct (lookup_lt_is_Some_2 setting_values (f i) Hi) as [y Hy].
    exists (y :: ys). split; [|by constructor].
    cbn [Py.traverse]. by rewrite (getitem_Returned _ _ _ Hy), IH.
Qed.

Lemma traverse_getitem_Raised (setting_values : list string) (f : nat → nat)
    (l : list nat) :
  Exists (λ i, length setting_values ≤ f i) l →
  Py.traverse (λ i, Py.getitem setting_values (f i)) l = Raised "IndexError".
Proof.
  induction 1 as [i l Hi|i l _ IH]; cbn [Py.traverse].
  - by rewrite getitem_Raised.
  - rewrite IH. unfold Py.getitem. by destruct (setting_values !! f i).
Qed.

(** X8: [upgrade_settings] leaves the setting values of another revision
    than 1 as they are. From revision 1, with the count [n] at position 1,
    it keeps the first two values and then takes the values at the positions
    3, 5, ..., which drops the image names; that gives [n + 2] values of
    revision 2. It ends in an [IndexError] when the values stop before the
    last of these positions. *)
Theorem X8_upgrade_settings_drops_the_image_names (setting_values : list string)
    (from_matlab : bool) :
  (∀ revision, revision ≠ 1 →
     Groups.upgrade_settings int setting_values revision from_matlab =
       Returned (setting_values, revision, from_matlab)) ∧
  (setting_values !! 1 = None →
   Groups.upgrade_settings int setting_values 1 from_matlab = Raised "IndexError") ∧
  (∀ count n, setting_values !! 1 = Some count → int count = Returned n →
     ((Z.to_nat n = 0 ∨ 2 * Z.to_nat n + 1 < length setting_values) →
      ∃ values,
        Groups.upgrade_settings int setting_values 1 from_matlab =
          Returned (values, 2, from_matlab) ∧
        length values = Z.to_nat n + 2 ∧
        take 2 values = take 2 setting_values ∧
        ∀ i, i < Z.to_nat n → values !! (2 + i) = setting_values !! (3 + i * 2)) ∧
     (0 < Z.to_nat n → length setting_values ≤ 2 * Z.to_nat n + 1 →
      Groups.upgrade_settings int setting_values 1 from_matlab = Raised "IndexError")).
Proof.
  unfold Groups.upgrade_settings, Groups.IDX_GROUPING_METADATA_COUNT. split_and!.
  - intros revision Hr. by rewrite bool_decide_eq_false_2.
  - intros Hnone. rewrite bool_decide_eq_true_2 by done.
    by rewrite getitem_Raised by (by apply lookup_ge_None).
  - intros count n Hcount Hint. rewrite bool_decide_eq_true_2 by done.
    rewrite (getitem_Returned _ _ _ Hcount), result_bind_Returned.
    rewrite Hint, result_bind_Returned.
    pose proof (lookup_lt_Some _ _ _ Hcount) as Hlen2.
    split.
    + intros Hlen.
      destruct (traverse_getitem_Returned setting_values (λ i, 1 + 2 + i * 2)
                  (seq 0 (Z.to_nat n))) as (ys & -> & HF).
      { apply Forall_forall. intros i Hi%elem_of_seq. lia. }
      rewrite result_bind_Returned. eexists. split; [done|].
      pose proof (Forall2_length _ _ _ HF) as Hl. rewrite length_seq in Hl.
      split_and!.
      * rewrite length_app, length_take. lia.
      * rewrite take_app_le by (rewrite length_take; lia).
        rewrite take_take. done.
      * intros i Hi. rewrite lookup_app_r by (rewrite length_take; lia).
        rewrite length_take.
        replace (2 + i - (1 + 1) `min` length setting_values) with i by lia.
        destruct (Forall2_lookup_l _ _ _ i i HF) as (y & Hy & Hsv).
        { by apply lookup_seq_lt. }
        rewrite Hy. by rewrite <-Hsv.
    + intros Hn Hshort.
      rewrite traverse_getitem_Raised; [done|].
      apply Exists_exists. exists (Z.to_nat n - 1). split; [|lia].
      apply elem_of_seq. lia.
Qed.

Lemma prepare_settings_Returned (self : Groups.Groups) (setting_values : list string)
    (count : string) (n : Z) :
  setting_values !! 1 = Some count →
  int count = Returned n →
  (0 ≤ n)%Z →
  Groups.prepare_settings int new_choice self setting_values =
    Returned
      {| Groups.wants_groups := Groups.wants_groups self;
         Groups.grouping_metadata :=
           take (Z.to_nat n) (Groups.grouping_metadata self) ++
           replicate (Z.to_nat n - length (take (Z.to_nat n) (Groups.grouping_metadata self)))
             new_choice |}.
Proof.
  intros Hcount Hint Hn. unfold Groups.prepare_settings.
  assert (Py.getitem setting_values Groups.IDX_GROUPING_METADATA_COUNT = Returned count)
    as -> by (unfold Py.getitem, Groups.IDX_GROUPING_METADATA_COUNT; by rewrite Hcount).
  rewrite result_bind_Returned, Hint, result_bind_Returned.
  rewrite prepare_settings_delete_enough by lia.
  rewrite bool_decide_eq_false_2 by lia.
  rewrite result_bind_Returned, prepare_settings_add_enough by lia.
  by rewrite result_bind_Returned.
Qed.

(** X9: the setting values that [upgrade_settings] makes of the values of
    revision 1 fit the module that [prepare_settings] makes of them: it has
    one setting for each value. This holds for a count that is not negative
    and values that reach the last group. *)
Theorem X9_upgraded_settings_fit_the_module (self : Groups.Groups)
    (setting_values : list string) (count : string) (n : Z) (from_matlab : bool) :
  setting_values !! 1 = Some count →
  int count = Returned n →
  (0 ≤ n)%Z →
  Z.to_nat n = 0 ∨ 2 * Z.to_nat n + 1 < length setting_values →
  ∃ values self',
    Groups.upgrade_settings int setting_values 1 from_matlab =
      Returned (values, 2, from_matlab) ∧
    Groups.prepare_settings int new_choice self values = Returned self' ∧
    length (Groups.settings self') = length values.
Proof.
  intros Hcount Hint Hn Hlen.
  pose proof (lookup_lt_Some _ _ _ Hcount) as Hlen2.
  destruct (traverse_getitem_Returned setting_values (λ i, 1 + 2 + i * 2)
              (seq 0 (Z.to_nat n))) as (ys & Hys & HF).
  { apply Forall_forall. intros i Hi%elem_of_seq. lia. }
  pose proof (Forall2_length _ _ _ HF) as Hl. rewrite length_seq in Hl.
  assert ((take 2 setting_values ++ ys) !! 1 = Some count) as Hcount'.
  { rewrite lookup_app_l by (rewrite length_take; lia).
    by rewrite lookup_take_lt by lia. }
  eexists (take 2 setting_values ++ ys), _. split_and!.
  - unfold Groups.upgrade_settings, Groups.IDX_GROUPING_METADATA_COUNT.
    rewrite bool_decide_eq_true_2 by done.
    rewrite (getitem_Returned _ _ _ Hcount), result_bind_Returned.
    by rewrite Hint, result_bind_Returned, Hys, result_bind_Returned.
  - by apply (prepare_settings_Returned self _ count n).
  - unfold Groups.settings. cbn [Groups.grouping_metadata].
    rewrite !length_app, length_fmap, length_seq, length_replicate, !length_take.
    cbn [length]. lia.
Qed.
End loading.

Lemma X7_prepare_settings_sets_the_count_witness :
  ∃ self',
    Groups.prepare_settings example_int "None" example_groups ["Yes"; "3"] =
      Returned self' ∧
    Groups.grouping_metadata self' = ["row"; "None"; "None"] ∧
    length (Groups.settings self') = 5.
Proof.
  destruct (X7_prepare_settings_sets_the_count example_int "None" example_groups
              ["Yes"; "3"] "3" 3 eq_refl eq_refl) as [_ Hgrow].
  destruct Hgrow as (self' & Hrun & _ & Hgroups & _ & Hsettings); [lia|].
  exists self'. by split_and!.
Defined.

Lemma X8_upgrade_settings_drops_the_image_names_witness :
  ∃ values,
    Groups.upgrade_settings example_int example_setting_values 1 false =
      Returned (values, 2, false) ∧
    length values = 4 ∧
    values !! 2 = Some "plate" ∧ values !! 3 = Some "well".
Proof.
  destruct (X8_upgrade_settings_drops_the_image_names example_int
              example_setting_values false) as (_ & _ & Hone).
  destruct (Hone "2" 2%Z eq_refl eq_refl) as [Hlong _].
  destruct Hlong as (values & Hrun & Hlen & _ & Hat).
  { right. simpl. lia. }
  exists values. split_and!; [done|done| |].
  - apply (Hat 0). lia.
  - apply (Hat 1). lia.
Defined.

Lemma X9_upgraded_settings_fit_the_module_witness :
  ∃ values self',
    Groups.upgrade_settings example_int example_setting_values 1 false =
      Returned (values, 2, false) ∧
    Groups.prepare_settings example_int "None" example_groups values = Returned self' ∧
    length (Groups.settings self') = length values.
Proof.
  apply (X9_upgraded_settings_fit_the_module example_int "None" example_groups
           example_setting_values "2" 2%Z false eq_refl eq_refl).
  - lia.
  - right. simpl. lia.
Defined.

(** ** The dictionary of [RescaleIntensity] *)

Section aggregation.
Import RescaleIntensity.

(** X10: what [set_automatic_minimum] stores, [get_automatic_minimum]
    reads, and likewise for the maximum; the two are kept under keys that
    differ, so setting one leaves the other as it was, and the order in
    which they are set does not matter. *)
Theorem X10_automatic_extrema_are_kept_apart (d : dictionary)
    (low high : option float) :
  get_automatic_minimum (set_automatic_minimum d low) = Some low ∧
  get_automatic_maximum (set_automatic_maximum d high) = Some high ∧
  get_automatic_maximum (set_automatic_minimum d low) = get_automatic_maximum d ∧
  get_automatic_minimum (set_automatic_maximum d high) = get_automatic_minimum d ∧
  set_automatic_minimum (set_automatic_maximum d high) low =
    set_automatic_maximum (set_automatic_minimum d low) high.
Proof.
  unfold get_automatic_minimum, get_automatic_maximum, set_automatic_minimum,
    set_automatic_maximum.
  split_and!.
  - by rewrite lookup_insert_eq.
  - by rewrite lookup_insert_eq.
  - by rewrite lookup_insert_ne.
  - by rewrite lookup_insert_ne.
  - by rewrite insert_insert_ne.
Qed.

Lemma amin_Raised (a : list float) (exc : string) :
  Numpy.amin a = Raised exc → exc = "ValueError".
Proof. destruct a; [by intros [= <-]|done]. Qed.

Lemma is_aggregation_module_true (self : RescaleIntensity) :
  is_aggregation_module self = true ↔
  wants_automatic_high self = HIGH_ALL_IMAGES ∨ wants_automatic_low self = LOW_ALL_IMAGES.
Proof.
  unfold is_aggregation_module.
  by rewrite orb_true_iff, !bool_decide_eq_true.
Qed.

Lemma prepare_group_returns_early (self : RescaleIntensity) :
  bool_decide (wants_automatic_high self ≠ HIGH_ALL_IMAGES) &&
  bool_decide (wants_automatic_low self ≠ LOW_ALL_IMAGES) =
  negb (is_aggregation_module self).
Proof.
  unfold is_aggregation_module. by rewrite !bool_decide_not, negb_orb.
Qed.

Lemma has_pixels_dec (image : Image) : has_pixels image ∨ ¬ has_pixels image.
Proof.
  unfold has_pixels.
  destruct (if has_mask image
            then Numpy.select (pixel_data image) (mask image)
            else pixel_data image); [right|left]; naive_solver.
Qed.

Lemma Forall_has_pixels_dec (images : list Image) :
  Forall has_pixels images ∨ ¬ Forall has_pixels images.
Proof.
  induction images as [|image images [IH|IH]].
  - by left.
  - destruct (has_pixels_dec image) as [Hp|Hp].
    + left. by constructor.
    + right. by intros [? ?]%Forall_cons.
  - right. by intros [? ?]%Forall_cons.
Qed.

Lemma prepare_group_step_Returned (self : RescaleIntensity)
    (acc : option float * option float) (image : Image) :
  has_pixels image → ∃ acc', prepare_group_step self acc image = Returned acc'.
Proof.
  intros Hpx. destruct acc as [min_value max_value].
  unfold prepare_group_step, has_pixels in *.
  destruct (has_mask image).
  - destruct (amax_Returned _ Hpx) as [vmax ->].
    destruct (amin_Returned _ Hpx) as [vmin ->].
    repeat case_bool_decide; step_bind; by eexists.
  - destruct (amax_Returned _ Hpx) as [vmax ->].
    destruct (amin_Returned _ Hpx) as [vmin ->].
    repeat case_bool_decide; step_bind; by eexists.
Qed.

Lemma prepare_group_step_Raised (self : RescaleIntensity)
    (acc : option float * option float) (image : Image) :
  is_aggregation_module self = true →
  ¬ has_pixels image →
  prepare_group_step self acc image = Raised "ValueError".
Proof.
  intros Hagg%is_aggregation_module_true Hpx. destruct acc as [min_value max_value].
  unfold prepare_group_step, has_pixels in *.
  destruct (has_mask image).
  - destruct (Numpy.select (pixel_data image) (mask image)); [|by destruct Hpx].
    repeat case_bool_decide; step_bind; try done. by destruct Hagg.
  - destruct (pixel_data image); [|by destruct Hpx].
    repeat case_bool_decide; step_bind; try done. by destruct Hagg.
Qed.

Lemma prepare_group_loop_Raised (self : RescaleIntensity) (images : list Image)
    (acc : option float * option float) :
  is_aggregation_module self = true →
  ¬ Forall has_pixels images →
  prepare_group_loop self acc images = Raised "ValueError".
Proof.
  intros Hagg. revert acc.
  induction images as [|image images IH]; intros acc Hpx.
  - by destruct Hpx.
  - cbn [prepare_group_loop]. destruct (has_pixels_dec image) as [Hp|Hp].
    + destruct (prepare_group_step_Returned self acc image Hp) as [acc' ->].
      rewrite result_bind_Returned. apply IH. intros HF. apply Hpx. by constructor.
    + by rewrite prepare_group_step_Raised.
Qed.

(** X11: [prepare_group] returns [True] at once, with the dictionary as it
    was and without reading an image, exactly when [is_aggregation_module]
    answers [False]. Otherwise it returns nothing when every image has
    pixels to take the extremum of, and ends in a [ValueError] when one has
    none. *)
Theorem X11_prepare_group_scans_iff_aggregation (self : RescaleIntensity)
    (images : list Image) (d : dictionary) :
  (is_aggregation_module self = false ↔
   prepare_group self images d = Returned (d, Some true)) ∧
  (is_aggregation_module self = true →
   (Forall has_pixels images →
    ∃ d', prepare_group self images d = Returned (d', None)) ∧
   (¬ Forall has_pixels images →
    prepare_group self images d = Raised "ValueError")).
Proof.
  assert (is_aggregation_module self = true →
          (Forall has_pixels images →
           ∃ d', prepare_group self images d = Returned (d', None)) ∧
          (¬ Forall has_pixels images →
           prepare_group self images d = Raised "ValueError")) as Hscan.
  { intros Hagg. unfold prepare_group.
    rewrite prepare_group_returns_early, Hagg. cbn [negb].
    split; intros Hpx.
    - rewrite (prepare_group_loop_Returned self images None None Hpx).
      rewrite result_bind_Returned. by eexists.
    - by rewrite prepare_group_loop_Raised. }
  split; [|done]. split.
  - intros Hagg. unfold prepare_group.
    by rewrite prepare_group_returns_early, Hagg.
  - intros Hrun. destruct (is_aggregation_module self) eqn:Hagg; [|done].
    destruct (Hscan eq_refl) as [Hsome Hnone].
    destruct (Forall_has_pixels_dec images) as [Hpx|Hpx].
    + destruct (Hsome Hpx) as [d' Hd']. by rewrite Hd' in Hrun.
    + by rewrite (Hnone Hpx) in Hrun.
Qed.

Lemma X11_prepare_group_scans_iff_aggregation_witness :
  prepare_group example_rescale
    [example_plain_image;
     {| pixel_data := []; mask := []; has_mask := false |}] ∅ = Raised "ValueError".
Proof.
  apply (proj2 (X11_prepare_group_scans_iff_aggregation example_rescale _ ∅)).
  - reflexivity.
  - intros [_ [Hpx _]%Forall_cons]%Forall_cons. by apply Hpx.
Defined.

Lemma prepare_group_keys (self : RescaleIntensity) (images : list Image)
    (d d' : dictionary) (r : option bool) :
  prepare_group self images d = Returned (d', r) →
  (wants_automatic_low self = LOW_ALL_IMAGES → is_Some (d' !! LOW_ALL_IMAGES)) ∧
  (wants_automatic_high self = HIGH_ALL_IMAGES → is_Some (d' !! HIGH_ALL_IMAGES)).
Proof.
  unfold prepare_group, set_automatic_maximum, set_automatic_minimum.
  destruct (decide (wants_automatic_high self = HIGH_ALL_IMAGES)) as [Hh|Hh];
    destruct (decide (wants_automatic_low self = LOW_ALL_IMAGES)) as [Hl|Hl];
    rewrite ?(bool_decide_eq_true_2 _ Hh), ?(bool_decide_eq_false_2 _ Hh),
      ?(bool_decide_eq_true_2 _ Hl), ?(bool_decide_eq_false_2 _ Hl),
      ?(bool_decide_eq_false_2 (_ ≠ _)) by naive_solver;
    rewrite ?(bool_decide_eq_true_2 (_ ≠ _)) by naive_solver; cbn [andb].
  4: { intros [= <- <-]. naive_solver. }
  all: destruct (prepare_group_loop self (None, None) images)
         as [[min_value max_value]|exc]; [|by rewrite result_bind_Raised].
  all: rewrite result_bind_Returned; intros [= <- <-]; split; intros ?; try done.
  all: rewrite ?lookup_insert_eq, ?lookup_insert_ne, ?lookup_insert_eq by done;
    by eexists.
Qed.

Lemma bind_not_Raised {A B} (m : Py.result A) (k : A → Py.result B) (exc : string) :
  m ≠ Raised exc → (∀ a, m = Returned a → k a ≠ Raised exc) → m ≫= k ≠ Raised exc.
Proof.
  destruct m as [a|exc'].
  - intros _ Hk. rewrite result_bind_Returned. by apply Hk.
  - intros Hm _. rewrite result_bind_Raised. intros [= ->]. by apply Hm.
Qed.

(** X12: after [prepare_group] has returned, [get_source_range] finds in
    the dictionary what it reads there: it never ends in a [KeyError], and
    it returns a range when the input image has pixels to take the extremum
    of. *)
Theorem X12_prepare_group_serves_get_source_range (self : RescaleIntensity)
    (images : list Image) (d d' : dictionary) (r : option bool)
    (range : SourceRange) (input_image : Image) :
  prepare_group self images d = Returned (d', r) →
  get_source_range self range input_image d' ≠ Raised "KeyError" ∧
  (has_pixels input_image →
   ∃ src_min src_max,
     get_source_range self range input_image d' = Returned (src_min, src_max)).
Proof.
  intros [Hlow Hhigh]%prepare_group_keys.
  unfold get_source_range, get_automatic_minimum, get_automatic_maximum, has_pixels.
  destruct (bool_decide (wants_automatic_high self = CUSTOM_VALUE) &&
            bool_decide (wants_automatic_low self = CUSTOM_VALUE)).
  { split; [done|]. by eexists _, _. }
  split.
  - apply bind_not_Raised.
    + case_bool_decide as Hl.
      * by destruct (Hlow Hl) as [v ->].
      * case_bool_decide; [|done].
        destruct (Numpy.amin _) as [v|exc] eqn:E; [done|].
        apply amin_Raised in E as ->. done.
    + intros src_min _. apply bind_not_Raised; [|done].
      case_bool_decide as Hh.
      * by destruct (Hhigh Hh) as [v ->].
      * case_bool_decide; [|done].
        destruct (Numpy.amax _) as [v|exc] eqn:E; [done|].
        apply amax_Raised in E as ->. done.
  - intros Hpx.
    destruct (amin_Returned _ Hpx) as [vmin ->].
    destruct (amax_Returned _ Hpx) as [vmax ->].
    assert (∃ src_min,
      (if bool_decide (wants_automatic_low self = LOW_ALL_IMAGES)
       then match d' !! LOW_ALL_IMAGES with
            | Some value => Returned value
            | None => Raised "KeyError"
            end
       else if bool_decide (wants_automatic_low self = LOW_EACH_IMAGE)
            then Some <$> Returned vmin
            else Returned (Some (source_low range))) = Returned src_min) as [src_min ->].
    { case_bool_decide as Hl.
      - destruct (Hlow Hl) as [v ->]. by eexists.
      - case_bool_decide; by eexists. }
    rewrite result_bind_Returned.
    assert (∃ src_max,
      (if bool_decide (wants_automatic_high self = HIGH_ALL_IMAGES)
       then match d' !! HIGH_ALL_IMAGES with
            | Some value => Returned value
            | None => Raised "KeyError"
            end
       else if bool_decide (wants_automatic_high self = HIGH_EACH_IMAGE)
            then Some <$> Returned vmax
            else Returned (Some (source_high range))) = Returned src_max) as [src_max ->].
    { case_bool_decide as Hh.
      - destruct (Hhigh Hh) as [v ->]. by eexists.
      - case_bool_decide; by eexists. }
    rewrite result_bind_Returned. by eexists _, _.
Qed.

Lemma X12_prepare_group_serves_get_source_range_witness :
  ∃ src_min src_max,
    get_source_range example_rescale
      {| source_low := 0; source_high := 1; source_scale_min := 0; source_scale_max := 1 |}
      example_plain_image
      (<[LOW_ALL_IMAGES := Some 0.25%float]> (<[HIGH_ALL_IMAGES := Some 0.5%float]> ∅)) =
    Returned (src_min, src_max).
Proof.
  assert (prepare_group example_rescale [example_plain_image] ∅ =
          Returned (<[LOW_ALL_IMAGES := Some 0.25%float]>
                      (<[HIGH_ALL_IMAGES := Some 0.5%float]> ∅), None)) as Hrun
    by (by vm_compute).
  apply (proj2 (X12_prepare_group_serves_get_source_range example_rescale
                  [example_plain_image] ∅ _ None _ example_plain_image Hrun)).
  by vm_compute.
Defined.

End aggregation.

(** ** Dividing by an extremum of the image *)

Section dividing.
Import RescaleIntensity.

(** X13: [divide_by_image_maximum] takes the maximum of the pixels that
    the mask selects and divides every pixel by it, also the pixels that the
    mask leaves out. It ends in a [ValueError] exactly when the mask selects
    no pixel and in a [ZeroDivisionError] exactly when the maximum equals
    zero; it raises nothing else, and what it returns has the length of the
    pixels. [divide_by_image_minimum] does the same with the minimum. *)
Theorem X13_divide_by_image_extremum (input_image : Image) :
  (divide_by_image_maximum input_image = Raised "ValueError" ↔
   Numpy.select (pixel_data input_image) (mask input_image) = []) ∧
  (divide_by_image_minimum input_image = Raised "ValueError" ↔
   Numpy.select (pixel_data input_image) (mask input_image) = []) ∧
  (∀ src_max,
     Numpy.amax (Numpy.select (pixel_data input_image) (mask input_image)) =
       Returned src_max →
     divide_by_image_maximum input_image =
       if PrimFloat.eqb src_max 0 then Raised "ZeroDivisionError"
       else Returned ((λ x, PrimFloat.div x src_max) <$> pixel_data input_image)) ∧
  (∀ src_min,
     Numpy.amin (Numpy.select (pixel_data input_image) (mask input_image)) =
       Returned src_min →
     divide_by_image_minimum input_image =
       if PrimFloat.eqb src_min 0 then Raised "ZeroDivisionError"
       else Returned ((λ x, PrimFloat.div x src_min) <$> pixel_data input_image)) ∧
  (∀ data,
     divide_by_image_maximum input_image = Returned data ∨
     divide_by_image_minimum input_image = Returned data →
     length data = length (pixel_data input_image)).
Proof.
  unfold divide_by_image_maximum, divide_by_image_minimum, divide.
  destruct (Numpy.select (pixel_data input_image) (mask input_image)) as [|x pixels];
    cbn [Numpy.amax Numpy.amin];
    rewrite ?result_bind_Returned, ?result_bind_Raised.
  - split_and!; try done. by intros data [Hd|Hd].
  - split_and!.
    + split; [|done]. by destruct (PrimFloat.eqb (foldl Numpy.fmax2 x pixels) 0).
    + split; [|done]. by destruct (PrimFloat.eqb (foldl Numpy.fmin2 x pixels) 0).
    + by intros ? [= <-].
    + by intros ? [= <-].
    + intros data [Hd|Hd].
      * destruct (PrimFloat.eqb (foldl Numpy.fmax2 x pixels) 0); [done|].
        injection Hd as <-. by rewrite length_fmap.
      * destruct (PrimFloat.eqb (foldl Numpy.fmin2 x pixels) 0); [done|].
        injection Hd as <-. by rewrite length_fmap.
Qed.

Lemma X13_divide_by_image_extremum_witness :
  divide_by_image_maximum example_masked_image = Returned [1; 0x1.5555555555555p+0]%float.
Proof.
  rewrite (proj1 (proj2 (proj2 (X13_divide_by_image_extremum example_masked_image)))
             0.75%float eq_refl).
  reflexivity.
Defined.

End dividing.

(** ** The settings of [RescaleIntensity] *)

Section settings.
Import RescaleIntensity.

Ltac visible_cases :=
  unfold visible_settings, settings; cbv zeta;
  repeat case_bool_decide; cbn [orb app].

Ltac visible_member :=
  visible_cases; rewrite !elem_of_cons, elem_of_nil; intuition congruence.

(** X14: [visible_settings] always starts with the image name, the name of
    the rescaled image and the method; every setting that it shows is one
    that [settings] lists, and it shows none twice. *)
Theorem X14_visible_settings_are_settings (method : string) (self : RescaleIntensity) :
  visible_settings method self ⊆ settings ∧
  NoDup (visible_settings method self) ∧
  take 3 (visible_settings method self) =
    [setting.image_name; setting.rescaled_image_name; setting.rescale_method].
Proof.
  split_and!.
  - intros x Hx. revert x Hx.
    apply (proj1 (Forall_forall (λ x, x ∈ settings) (visible_settings method self))).
    visible_cases; by apply (bool_decide_unpack _).
  - visible_cases; by apply (bool_decide_unpack _).
  - visible_cases; done.
Qed.

(** X15: with one of the two methods that take the range from the user,
    [visible_settings] shows [source_scale] exactly when both choices are
    [CUSTOM_VALUE], which is when [get_source_range] answers
    [source_scale]; it shows [source_low] exactly when only the choice for
    the minimum is [CUSTOM_VALUE], and [source_high] exactly when only the
    choice for the maximum is. With another method it shows none of them. *)
Theorem X15_visible_bounds_follow_the_choices (method : string)
    (self : RescaleIntensity) :
  (method = M_MANUAL_INPUT_RANGE ∨ method = M_MANUAL_IO_RANGE →
   (setting.source_scale ∈ visible_settings method self ↔
    wants_automatic_low self = CUSTOM_VALUE ∧ wants_automatic_high self = CUSTOM_VALUE) ∧
   (setting.source_low ∈ visible_settings method self ↔
    wants_automatic_low self = CUSTOM_VALUE ∧ wants_automatic_high self ≠ CUSTOM_VALUE) ∧
   (setting.source_high ∈ visible_settings method self ↔
    wants_automatic_low self ≠ CUSTOM_VALUE ∧ wants_automatic_high self = CUSTOM_VALUE) ∧
   (∀ range input_image d,
      setting.source_scale ∈ visible_settings method self →
      get_source_range self range input_image d =
        Returned (Some (source_scale_min range), Some (source_scale_max range)))) ∧
  (method ≠ M_MANUAL_INPUT_RANGE → method ≠ M_MANUAL_IO_RANGE →
   (setting.source_scale ∉ visible_settings method self) ∧
   (setting.source_low ∉ visible_settings method self) ∧
   (setting.source_high ∉ visible_settings method self)).
Proof.
  split.
  - intros Hmethod.
    assert (setting.source_scale ∈ visible_settings method self ↔
            wants_automatic_low self = CUSTOM_VALUE ∧
            wants_automatic_high self = CUSTOM_VALUE) as Hscale
      by visible_member.
    split_and!; [done| | |].
    + visible_member.
    + visible_member.
    + intros range input_image d [Hlow Hhigh]%Hscale. unfold get_source_range.
      by rewrite (bool_decide_eq_true_2 _ Hlow), (bool_decide_eq_true_2 _ Hhigh).
  - intros Hinput Hio. split_and!; visible_member.
Qed.

Lemma X15_visible_bounds_follow_the_choices_witness :
  setting.source_low ∈
    visible_settings M_MANUAL_INPUT_RANGE
      {| wants_automatic_low := CUSTOM_VALUE; wants_automatic_high := HIGH_EACH_IMAGE |}.
Proof.
  apply (proj1 (X15_visible_bounds_follow_the_choices M_MANUAL_INPUT_RANGE _)).
  - by left.
  - done.
Defined.

End settings.

(** ** Upgrading the settings of [RescaleIntensity] *)

Lemma lookup_take_9_drop_13 {A} (l : list A) (i : nat) :
  (take 9 l ++ drop 13 l) !! i = if decide (i < 9) then l !! i else l !! (i + 4).
Proof.
  destruct (decide (i < 9)) as [Hi|Hi].
  - destruct (decide (i < length l)) as [Hl|Hl].
    + rewrite lookup_app_l by (rewrite length_take; lia). by apply lookup_take_lt.
    + rewrite (lookup_ge_None_2 l i) by lia.
      apply lookup_ge_None_2. rewrite length_app, length_take, length_drop. lia.
  - destruct (decide (9 ≤ length l)) as [Hl|Hl].
    + rewrite lookup_app_r by (rewrite length_take; lia).
      rewrite length_take, lookup_drop. f_equal. lia.
    + rewrite (lookup_ge_None_2 l (i + 4)) by lia.
      apply lookup_ge_None_2. rewrite length_app, length_take, length_drop. lia.
Qed.

Section upgrading.
Import RescaleIntensity.
Variable YES : string.

Lemma upgrade_choice_Returned (i : nat) (automatic value : string)
    (setting_values : list string) :
  setting_values !! i = Some value →
  upgrade_choice YES i automatic setting_values =
    Returned (<[i := if bool_decide (value = YES) then automatic else CUSTOM_VALUE]>
                setting_values).
Proof.
  intros Hi. unfold upgrade_choice.
  by rewrite (getitem_Returned _ _ _ Hi), result_bind_Returned.
Qed.

Lemma upgrade_choice_Raised (i : nat) (automatic : string) (setting_values : list string) :
  length setting_values ≤ i →
  upgrade_choice YES i automatic setting_values = Raised "IndexError".
Proof.
  intros Hi. unfold upgrade_choice.
  by rewrite (getitem_Raised _ _ Hi), result_bind_Raised.
Qed.

(** X16: [upgrade_settings] leaves the setting values of a revision other
    than 1 and 2 as they are, and always answers that they are not from
    Matlab. From revision 2 it drops the values at the positions 9 to 12.
    From revision 1 it first turns the values at the positions 3 and 4 into
    choices, for each image if the value was [YES] and custom otherwise, so
    the choices are among [LOW_ALL] and [HIGH_ALL] and the upgraded module
    is no aggregation module; it ends in an [IndexError] when there are
    fewer than five values. *)
Theorem X16_upgrade_settings_makes_the_choices (setting_values : list string) :
  (∀ revision, revision ≠ 1 → revision ≠ 2 →
     upgrade_settings YES setting_values revision =
       Returned (setting_values, revision, false)) ∧
  upgrade_settings YES setting_values 2 =
    Returned (take 9 setting_values ++ drop 13 setting_values, 3, false) ∧
  (length setting_values < 5 →
   upgrade_settings YES setting_values 1 = Raised "IndexError") ∧
  (∀ low high,
     setting_values !! 3 = Some low →
     setting_values !! 4 = Some high →
     ∃ values l h,
       upgrade_settings YES setting_values 1 = Returned (values, 3, false) ∧
       values !! 3 = Some l ∧
       values !! 4 = Some h ∧
       l = (if bool_decide (low = YES) then LOW_EACH_IMAGE else CUSTOM_VALUE) ∧
       h = (if bool_decide (high = YES) then HIGH_EACH_IMAGE else CUSTOM_VALUE) ∧
       l ∈ LOW_ALL ∧
       h ∈ HIGH_ALL ∧
       is_aggregation_module
         {| wants_automatic_low := l; wants_automatic_high := h |} = false ∧
       (∀ i, i < 9 → i ≠ 3 → i ≠ 4 → values !! i = setting_values !! i) ∧
       (∀ i, 9 ≤ i → values !! i = setting_values !! (i + 4))).
Proof.
  unfold upgrade_settings. split_and!.
  - intros revision H1 H2.
    rewrite (bool_decide_eq_false_2 _ H1), result_bind_Returned.
    by rewrite (bool_decide_eq_false_2 _ H2).
  - by rewrite bool_decide_eq_false_2, result_bind_Returned by done.
  - intros Hlen. rewrite bool_decide_eq_true_2 by done.
    destruct (setting_values !! 3) as [low|] eqn:Hlow.
    + rewrite (upgrade_choice_Returned 3 _ low) by done.
      rewrite result_bind_Returned.
      rewrite upgrade_choice_Raised by (rewrite length_insert; lia).
      by rewrite !result_bind_Raised.
    + rewrite upgrade_choice_Raised by (by apply lookup_ge_None).
      by rewrite !result_bind_Raised.
  - intros low high Hlow Hhigh.
    pose proof (lookup_lt_Some _ _ _ Hlow) as Hlen3.
    pose proof (lookup_lt_Some _ _ _ Hhigh) as Hlen4.
    rewrite bool_decide_eq_true_2 by done.
    rewrite (upgrade_choice_Returned 3 _ low) by done.
    rewrite result_bind_Returned.
    rewrite (upgrade_choice_Returned 4 _ high)
      by (by rewrite list_lookup_insert_ne).
    rewrite !result_bind_Returned.
    rewrite bool_decide_eq_true_2 by done.
    eexists _, _, _. split; [done|].
    rewrite !lookup_take_9_drop_13. cbn [decide_rel].
    split_and!.
    + rewrite decide_True by lia. rewrite list_lookup_insert_ne by done.
      by rewrite list_lookup_insert_eq.
    + rewrite decide_True by lia.
      by rewrite list_lookup_insert_eq by (rewrite length_insert; lia).
    + done.
    + done.
    + unfold LOW_ALL. case_bool_decide; [right; left|left]; done.
    + unfold HIGH_ALL. case_bool_decide; [right; left|left]; done.
    + by do 2 case_bool_decide.
    + intros i Hi H3 H4. rewrite lookup_take_9_drop_13, decide_True by done.
      by rewrite !list_lookup_insert_ne.
    + intros i Hi. rewrite lookup_take_9_drop_13, decide_False by lia.
      rewrite !list_lookup_insert_ne by lia. done.
Qed.

End upgrading.

Lemma X16_upgrade_settings_makes_the_choices_witness :
  ∃ values,
    RescaleIntensity.upgrade_settings "Yes"
      ["DNA"; "Rescaled"; "Stretch"; "Yes"; "No"; "0"; "1"; "0"; "1";
       "a"; "b"; "c"; "d"; "Other"] 1 = Returned (values, 3, false) ∧
    values !! 3 = Some RescaleIntensity.LOW_EACH_IMAGE ∧
    values !! 4 = Some RescaleIntensity.CUSTOM_VALUE ∧
    values !! 9 = Some "Other".
Proof.
  destruct (proj2 (proj2 (proj2 (X16_upgrade_settings_makes_the_choices "Yes"
              ["DNA"; "Rescaled"; "Stretch"; "Yes"; "No"; "0"; "1"; "0"; "1";
               "a"; "b"; "c"; "d"; "Other"]))) "Yes" "No" eq_refl eq_refl)
    as (values & l & h & Hrun & Hl & Hh & -> & -> & _ & _ & _ & _ & Hshift).
  exists values. split_and!; [done|done|done|].
  by rewrite (Hshift 9).
Defined.

(** ** The columns that [Groups] declares *)

(** X17: [get_measurement_columns] never raises. It declares nothing when
    groups are not wanted; otherwise it declares the grouping tags of the
    experiment and one image column for each grouping key. The features
    that [prepare_run] sets as grouping tags are the image columns
    declared. *)
Theorem X17_columns_declare_the_grouping_tags (C_METADATA : string)
    (self : Groups.Groups) :
  ∃ columns,
    Groups.get_measurement_columns C_METADATA self = Returned columns ∧
    (Groups.wants_groups self = false → columns = []) ∧
    (Groups.wants_groups self = true →
     length columns = S (length (Groups.grouping_metadata self))) ∧
    (∀ workspace tags,
       cpmeas.SetGroupingTags tags ∈
         (Groups.prepare_run C_METADATA self workspace).1 →
       ∃ features,
         tags = Some features ∧
         columns = Groups.ExperimentGroupingTags :: (Groups.ImageVarchar <$> features)).
Proof.
  unfold Groups.get_measurement_columns, Groups.prepare_run, Groups.get_grouping_tags.
  destruct (Groups.wants_groups self); cbn [negb].
  - eexists. split; [done|]. split_and!; [done| |].
    + intros _. by rewrite length_cons, !length_fmap.
    + intros workspace tags.
      destruct (Groups.in_batch_mode workspace); [by intros ?%elem_of_nil|].
      destruct (Groups.partition C_METADATA self workspace) as [[p|]|exc];
        cbn [fst]; try by intros ?%elem_of_nil.
      rewrite !elem_of_cons, elem_of_nil.
      intros [?|[?|[?|[[= ->]|[]]]]]; try done. by eexists.
  - exists []. split; [done|]. split_and!; [done|done|].
    intros workspace tags.
    by destruct (Groups.in_batch_mode workspace); intros ?%elem_of_nil.
Qed.
